(** * pybird: the BIRD status parser, embedded and verified

    A shallow embedding of [pybird.py] (class [PyBird]): the field
    tokenizer, the peer summary and peer detail parsers, the route
    statistics extractor, the timestamp normalizer, the response parser
    and the query entry point [get_peer_status].

    Python values are modelled as follows.
    - [str] (a Python 2 byte string) is [string]; the methods and builtins
      the program calls ([strip], [split], [lower], [replace],
      [splitlines], [int], [repr]) are in module [Py].
    - [int]/[long] is [Z].
    - a [dict] with string keys is a [gmap string pyval].
    - an exception is a value of [exn]; a computation that may raise has
      type [outcome A].
    - [datetime.now()] is an argument [now] of the functions that read the
      clock, and the socket transport [_send_query] is an argument of
      [get_peer_status]. *)

From Stdlib Require Import ZArith Ascii String List Lia Bool DecimalString.
From stdpp Require Import base option list gmap strings.

Local Open Scope string_scope.
Local Open Scope Z_scope.

(** ** Exceptions and fallible computations *)

(** The exception classes the program can raise.  [ValueError] carries its
    message, because the program raises it both for parse failures and for
    the peer-count check of [get_peer_status]; the other classes are raised
    by the interpreter only and are kept without their message. *)
Inductive exn : Type :=
| IndexError
| TypeError
| StopIteration
| OverflowError
| AttributeError
| ValueError (msg : string).

Inductive outcome (A : Type) : Type :=
| Ok (a : A)
| Raise (e : exn).
Arguments Ok {A} a.
Arguments Raise {A} e.

Definition bind {A B : Type} (r : outcome A) (k : A -> outcome B) : outcome B :=
  match r with
  | Ok a => k a
  | Raise e => Raise e
  end.

Notation "x <- r ;; k" := (bind r (fun x => k))
  (at level 100, r at next level, right associativity).

(** [try: r except ValueError: h]. Other exceptions propagate. *)
Definition except_ValueError {A : Type} (r : outcome A) (h : outcome A) : outcome A :=
  match r with
  | Raise (ValueError _) => h
  | _ => r
  end.

(** Whether a computation returned. *)
Definition is_Ok {A : Type} (r : outcome A) : bool :=
  match r with Ok _ => true | Raise _ => false end.

(** ** Python 2 byte-string primitives *)

Module Py.

Definition code (c : ascii) : Z := Z.of_N (N_of_ascii c).

(** [0-9], which is what [\d] denotes for a byte string when the pattern
    has neither the LOCALE nor the UNICODE flag. *)
Definition is_digit (c : ascii) : bool := (48 <=? code c) && (code c <=? 57).
Definition is_upper (c : ascii) : bool := (65 <=? code c) && (code c <=? 90).
Definition is_lower (c : ascii) : bool := (97 <=? code c) && (code c <=? 122).
Definition is_alnum (c : ascii) : bool := is_digit c || is_upper c || is_lower c.

(** [\w] is [[a-zA-Z0-9_]]; [\W] is its complement. *)
Definition is_word (c : ascii) : bool := is_alnum c || (code c =? 95).

(** The characters [str.strip()] and [str.split()] treat as whitespace,
    also the class [\s]: space, [\t], [\n], [\v], [\f], [\r]. *)
Definition is_space (c : ascii) : bool :=
  (code c =? 32) || ((9 <=? code c) && (code c <=? 13)).

Definition digit_val (c : ascii) : Z := code c - 48.

Definition to_lower (c : ascii) : ascii :=
  if is_upper c then ascii_of_N (N_of_ascii c + 32) else c.

Fixpoint lower (s : string) : string :=
  match s with
  | EmptyString => EmptyString
  | String c s' => String (to_lower c) (lower s')
  end.

Fixpoint forallb (p : ascii -> bool) (s : string) : bool :=
  match s with
  | EmptyString => true
  | String c s' => p c && forallb p s'
  end.

Fixpoint lstrip (s : string) : string :=
  match s with
  | EmptyString => EmptyString
  | String c s' => if is_space c then lstrip s' else s
  end.

Fixpoint rstrip (s : string) : string :=
  match s with
  | EmptyString => EmptyString
  | String c s' =>
      match rstrip s' with
      | EmptyString => if is_space c then EmptyString else String c EmptyString
      | r => String c r
      end
  end.

(** [s.strip()] *)
Definition strip (s : string) : string := rstrip (lstrip s).

Definition cons_head (c : ascii) (l : list string) : list string :=
  match l with
  | [] => [String c EmptyString]
  | t :: ts => String c t :: ts
  end.

(** [s.split()]: the maximal runs of non-whitespace characters. *)
Fixpoint split (s : string) : list string :=
  match s with
  | EmptyString => []
  | String c s' =>
      if is_space c then split s'
      else match s' with
           | EmptyString => [String c EmptyString]
           | String c' _ =>
               if is_space c' then String c EmptyString :: split s'
               else cons_head c (split s')
           end
  end.

(** [s.split(sep, 1)] for a one-character separator: one element when
    [sep] does not occur, two otherwise. *)
Fixpoint split_once (sep : ascii) (s : string) : list string :=
  match s with
  | EmptyString => [EmptyString]
  | String c s' =>
      if Ascii.eqb c sep then [EmptyString; s']
      else match split_once sep s' with
           | [a] => [String c a]
           | a :: rest => String c a :: rest
           | [] => [String c EmptyString]
           end
  end.

(** [s.replace(a, b)] for one-character [a] and [b]. *)
Fixpoint replace (a b : ascii) (s : string) : string :=
  match s with
  | EmptyString => EmptyString
  | String c s' => String (if Ascii.eqb c a then b else c) (replace a b s')
  end.

(** [s.splitlines()] of a byte string: lines end at [\n], [\r] or [\r\n];
    the line ends are dropped and a final line end opens no empty line. *)
Fixpoint splitlines (s : string) : list string :=
  match s with
  | EmptyString => []
  | String c s' =>
      if code c =? 10 then EmptyString :: splitlines s'
      else if code c =? 13 then
        match s' with
        | String c' s'' =>
            if code c' =? 10 then EmptyString :: splitlines s''
            else EmptyString :: splitlines s'
        | EmptyString => [EmptyString]
        end
      else cons_head c (splitlines s')
  end.

(** The value of a run of decimal digits, most significant first. *)
Fixpoint digits_val (acc : Z) (s : string) : Z :=
  match s with
  | EmptyString => acc
  | String c s' => digits_val (10 * acc + digit_val c) s'
  end.

Definition hex_digit (n : Z) : ascii :=
  ascii_of_N (Z.to_N (if n <? 10 then 48 + n else 87 + n)).

Fixpoint contains (c : ascii) (s : string) : bool :=
  match s with
  | EmptyString => false
  | String c' s' => Ascii.eqb c c' || contains c s'
  end.

Fixpoint repr_body (quote : ascii) (s : string) : string :=
  match s with
  | EmptyString => EmptyString
  | String c s' =>
      let rest := repr_body quote s' in
      if Ascii.eqb c quote || (code c =? 92) then String "\" (String c rest)
      else if code c =? 9 then String "\" (String "t" rest)
      else if code c =? 10 then String "\" (String "n" rest)
      else if code c =? 13 then String "\" (String "r" rest)
      else if (code c <? 32) || (127 <=? code c) then
        String "\" (String "x" (String (hex_digit (code c / 16))
                                   (String (hex_digit (code c mod 16)) rest)))
      else String c rest
  end.

(** [repr(s)] of a byte string: single quotes unless the string has a
    single quote and no double quote. *)
Definition repr (s : string) : string :=
  let quote : ascii :=
    if contains "'" s && negb (contains (ascii_of_N 34) s)
    then ascii_of_N 34 else "'"%char in
  String quote (repr_body quote s ++ String quote EmptyString).

(** A non-empty run of decimal digits. *)
Definition is_decimal (t : string) : bool :=
  match t with
  | EmptyString => false
  | String _ _ => forallb is_digit t
  end.

(** An optional sign, and what follows it. *)
Definition split_sign (t : string) : bool * string :=
  match t with
  | String c b =>
      if Ascii.eqb c "-" then (true, b)
      else if Ascii.eqb c "+" then (false, b)
      else (false, t)
  | EmptyString => (false, EmptyString)
  end.

(** [int(s)] in base 10: surrounding whitespace is skipped, one sign is
    allowed, at least one digit must follow and nothing else.  Every
    string the program passes to [int] is a regex digit group or a token
    of [split()], so it has no whitespace inside. *)
Definition int (s : string) : outcome Z :=
  let '(neg, body) := split_sign (strip s) in
  if is_decimal body
  then Ok (if neg then - digits_val 0 body else digits_val 0 body)
  else Raise (ValueError ("invalid literal for int() with base 10: " ++ repr s)).

(** [l[i]] on a list. *)
Definition index {A : Type} (l : list A) (i : nat) : outcome A :=
  match l !! i with
  | Some x => Ok x
  | None => Raise IndexError
  end.

End Py.

(** ** The peer name sanitizer *)

(** [clean_input_re = re.compile('\W+')], used as
    [clean_input_re.sub('', input)]: every maximal run of non-word
    characters is replaced by the empty string, so a character survives
    exactly when it is a word character. *)
Fixpoint clean_input_re_sub (input : string) : string :=
  match input with
  | EmptyString => EmptyString
  | String c rest =>
      if Py.is_word c then String c (clean_input_re_sub rest)
      else clean_input_re_sub rest
  end.

Definition _clean_input (input : string) : string :=
  Py.strip (clean_input_re_sub input).

(** ** Regular expressions, as backtracking matchers

    A matcher returns every way in which the pattern matches a prefix of
    the subject, in the order in which the backtracking engine of [re] tries
    them; [re.match] is the first one. *)

Module Re.

Definition matcher (A : Type) : Type := string -> list (A * string).

Definition class (p : ascii -> bool) : matcher string :=
  fun s =>
    match s with
    | String c r => if p c then [(String c EmptyString, r)] else []
    | EmptyString => []
    end.

Definition char (c : ascii) : matcher string := class (Ascii.eqb c).

(** Case-insensitive literal character, as under [re.IGNORECASE]. *)
Definition ichar (c : ascii) : matcher string :=
  class (fun x => Ascii.eqb (Py.to_lower x) (Py.to_lower c)).

Definition seq {A B C : Type} (f : A -> B -> C) (m1 : matcher A) (m2 : matcher B)
  : matcher C :=
  fun s =>
    flat_map (fun '(a, r) => map (fun '(b, r') => (f a b, r')) (m2 r)) (m1 s).

(** [m1|m2|...]: the alternatives in order. *)
Definition alt {A : Type} (ms : list (matcher A)) : matcher A :=
  fun s => flat_map (fun m => m s) ms.

Definition pure {A : Type} (a : A) : matcher A := fun s => [(a, s)].

(** [p+] for a character class, greedy: the longest run first, then each
    shorter one down to one character. *)
Fixpoint plus (p : ascii -> bool) (s : string) : list (string * string) :=
  match s with
  | String c r =>
      if p c then
        (map (fun '(a, r') => (String c a, r')) (plus p r)
           ++ [(String c EmptyString, r)])%list
      else []
  | EmptyString => []
  end.

Fixpoint literal (l : string) : matcher string :=
  match l with
  | EmptyString => pure EmptyString
  | String c l' => seq String.append (char c) (literal l')
  end.

Fixpoint iliteral (l : string) : matcher string :=
  match l with
  | EmptyString => pure EmptyString
  | String c l' => seq String.append (ichar c) (iliteral l')
  end.

(** [pattern.match(s)]: the first match at the start of [s]. *)
Definition re_match {A : Type} (m : matcher A) (s : string) : option (A * string) :=
  head (m s).

(** [pattern.findall(s)[0]], the leftmost match: the scan tries each start
    position from left to right. *)
Fixpoint search {A : Type} (m : matcher A) (s : string) : option (A * string) :=
  match re_match m s with
  | Some r => Some r
  | None =>
      match s with
      | EmptyString => None
      | String _ s' => search m s'
      end
  end.

End Re.

(** ** Dates and times *)

Record datetime : Type := mk_datetime {
  year : Z; month : Z; day : Z;
  hour : Z; minute : Z; second : Z; microsecond : Z
}.

Record timedelta : Type := mk_timedelta {
  td_days : Z; td_seconds : Z; td_microseconds : Z
}.

Module Calendar.

Definition is_leap (y : Z) : bool :=
  (y mod 4 =? 0) && (negb (y mod 100 =? 0) || (y mod 400 =? 0)).

Definition days_in_month (y m : Z) : Z :=
  if m =? 2 then (if is_leap y then 29 else 28)
  else if (m =? 4) || (m =? 6) || (m =? 9) || (m =? 11) then 30
  else 31.

Definition days_before_year (y : Z) : Z :=
  let p := y - 1 in p * 365 + p / 4 - p / 100 + p / 400.

Fixpoint days_before_month_aux (y : Z) (n : nat) : Z :=
  match n with
  | O => 0
  | S n' => days_before_month_aux y n' + days_in_month y (Z.of_nat n)
  end.

(** Days of year [y] before the first of month [m]. *)
Definition days_before_month (y m : Z) : Z :=
  days_before_month_aux y (Z.to_nat (m - 1)).

(** Proleptic Gregorian ordinal, 0001-01-01 being day 1. *)
Definition ymd2ord (y m d : Z) : Z :=
  days_before_year y + days_before_month y m + d.

(** The date of an ordinal, by the cycles of 400, 100, 4 and 1 years as the
    [datetime] module computes it. *)
Definition ord2ymd (ordinal : Z) : Z * Z * Z :=
  let n := ordinal - 1 in
  let n400 := n / 146097 in let n := n mod 146097 in
  let n100 := n / 36524 in let n := n mod 36524 in
  let n4 := n / 1461 in let n := n mod 1461 in
  let n1 := n / 365 in let n := n mod 365 in
  let y := n400 * 400 + 1 + n100 * 100 + n4 * 4 + n1 in
  if (n1 =? 4) || (n100 =? 4) then (y - 1, 12, 31)
  else
    let guess := Z.shiftr (n + 50) 5 in
    let preceding := days_before_month y guess in
    if n <? preceding
    then (y, guess - 1, n - (preceding - days_in_month y (guess - 1)) + 1)
    else (y, guess, n - preceding + 1).

Definition max_ordinal : Z := ymd2ord 9999 12 31.

End Calendar.

(** A C [int], the type the [datetime] constructor converts its arguments
    to. *)
Definition fits_c_int (z : Z) : bool := (- 2147483648 <=? z) && (z <=? 2147483647).

(** [datetime(year, month, day, hour, minute)] *)
Definition datetime_new (y m d h mi : Z) : outcome datetime :=
  if negb (forallb fits_c_int [y; m; d; h; mi]) then Raise OverflowError
  else if negb ((1 <=? y) && (y <=? 9999)) then
    Raise (ValueError "year is out of range")
  else if negb ((1 <=? m) && (m <=? 12)) then
    Raise (ValueError "month must be in 1..12")
  else if negb ((1 <=? d) && (d <=? Calendar.days_in_month y m)) then
    Raise (ValueError "day is out of range for month")
  else if negb ((0 <=? h) && (h <=? 23)) then
    Raise (ValueError "hour must be in 0..23")
  else if negb ((0 <=? mi) && (mi <=? 59)) then
    Raise (ValueError "minute must be in 0..59")
  else Ok (mk_datetime y m d h mi 0 0).

(** The keyword arguments [timedelta] accepts, with their length in
    microseconds. *)
Definition timedelta_units : list (string * Z) :=
  [ ("days", 86400000000); ("seconds", 1000000); ("microseconds", 1);
    ("milliseconds", 1000); ("minutes", 60000000); ("hours", 3600000000);
    ("weeks", 604800000000) ].

Fixpoint assoc {A : Type} (k : string) (l : list (string * A)) : option A :=
  match l with
  | [] => None
  | (k', v) :: l' => if String.eqb k k' then Some v else assoc k l'
  end.

(** [timedelta(kw=n)]: any other keyword is a [TypeError]. *)
Definition timedelta_new (kw : string) (n : Z) : outcome timedelta :=
  match assoc kw timedelta_units with
  | None => Raise TypeError
  | Some unit =>
      let us := n * unit in
      Ok (mk_timedelta (us / 86400000000)
                       ((us mod 86400000000) / 1000000)
                       (us mod 1000000))
  end.

(** [dt - td] *)
Definition datetime_sub (dt : datetime) (td : timedelta) : outcome datetime :=
  let us := microsecond dt - td_microseconds td in
  let s := hour dt * 3600 + minute dt * 60 + second dt - td_seconds td + us / 1000000 in
  let ordinal := Calendar.ymd2ord (year dt) (month dt) (day dt) - td_days td + s / 86400 in
  let s := s mod 86400 in
  if (1 <=? ordinal) && (ordinal <=? Calendar.max_ordinal) then
    let '(y, m, d) := Calendar.ord2ymd ordinal in
    Ok (mk_datetime y m d (s / 3600) ((s mod 3600) / 60) (s mod 60) (us mod 1000000))
  else Raise OverflowError.

(** *** [datetime.strptime] for the two formats the program uses *)

Definition two_digits (a b : string) : string := a ++ b.

Definition in_range (lo hi : ascii) (c : ascii) : bool :=
  (Py.code lo <=? Py.code c) && (Py.code c <=? Py.code hi).

(** [%H]: [(?P<H>2[0-3]|[0-1]\d|\d)] *)
Definition re_H : Re.matcher string :=
  Re.alt [ Re.seq two_digits (Re.char "2") (Re.class (in_range "0" "3"));
           Re.seq two_digits (Re.class (in_range "0" "1")) (Re.class Py.is_digit);
           Re.class Py.is_digit ].

(** [%M]: [(?P<M>[0-5]\d|\d)] *)
Definition re_M : Re.matcher string :=
  Re.alt [ Re.seq two_digits (Re.class (in_range "0" "5")) (Re.class Py.is_digit);
           Re.class Py.is_digit ].

(** [%d]: [(?P<d>3[0-1]|[1-2]\d|0[1-9]|[1-9]| [1-9])] *)
Definition re_d : Re.matcher string :=
  Re.alt [ Re.seq two_digits (Re.char "3") (Re.class (in_range "0" "1"));
           Re.seq two_digits (Re.class (in_range "1" "2")) (Re.class Py.is_digit);
           Re.seq two_digits (Re.char "0") (Re.class (in_range "1" "9"));
           Re.class (in_range "1" "9");
           Re.seq two_digits (Re.char " ") (Re.class (in_range "1" "9")) ].

(** [%Y]: [(?P<Y>\d\d\d\d)] *)
Definition re_Y : Re.matcher string :=
  Re.seq two_digits
    (Re.seq two_digits (Re.class Py.is_digit) (Re.class Py.is_digit))
    (Re.seq two_digits (Re.class Py.is_digit) (Re.class Py.is_digit)).

(** The abbreviated month names of the C locale, lower-cased, as [_strptime]
    keeps them. *)
Definition a_month : list string :=
  [ "jan"; "feb"; "mar"; "apr"; "may"; "jun";
    "jul"; "aug"; "sep"; "oct"; "nov"; "dec" ].

(** [%b]: [(?P<b>jan|feb|...|dec)], compiled with [re.IGNORECASE]. *)
Definition re_b : Re.matcher string :=
  Re.alt (map Re.iliteral a_month).

Fixpoint list_index (x : string) (l : list string) : option nat :=
  match l with
  | [] => None
  | y :: l' => if String.eqb x y then Some O else S <$> list_index x l'
  end.

Definition strptime_error (data_string format : string) : exn :=
  ValueError ("time data " ++ Py.repr data_string ++ " does not match format "
                ++ Py.repr format).

(** [datetime.strptime(value, "%H:%M")]: the date defaults to 1900-01-01. *)
Definition strptime_HM (data_string : string) : outcome datetime :=
  let pattern :=
    Re.seq (fun h m => (h, m)) re_H
      (Re.seq (fun _ m => m) (Re.char ":") re_M) in
  match Re.re_match pattern data_string with
  | None => Raise (strptime_error data_string "%H:%M")
  | Some ((h, m), rest) =>
      match rest with
      | String _ _ => Raise (ValueError ("unconverted data remains: " ++ rest))
      | EmptyString =>
          datetime_new 1900 1 1 (Py.digits_val 0 h) (Py.digits_val 0 m)
      end
  end.

(** [datetime.strptime(value, "%Y %b%d")]: the blank of the format is
    [\s+]; the date is checked against the calendar of the parsed year. *)
Definition strptime_YbD (data_string : string) : outcome datetime :=
  let pattern :=
    Re.seq (fun y bd => (y, bd)) re_Y
      (Re.seq (fun _ bd => bd) (Re.plus Py.is_space)
         (Re.seq (fun b d => (b, d)) re_b re_d)) in
  match Re.re_match pattern data_string with
  | None => Raise (strptime_error data_string "%Y %b%d")
  | Some ((y, (b, d)), rest) =>
      match rest with
      | String _ _ => Raise (ValueError ("unconverted data remains: " ++ rest))
      | EmptyString =>
          match list_index (Py.lower b) a_month with
          | None => Raise (strptime_error data_string "%Y %b%d")
          | Some i =>
              datetime_new (Py.digits_val 0 y) (Z.of_nat (S i))
                (Py.digits_val 0 (Py.lstrip d)) 0 0
          end
      end
  end.

(** ** The timestamp normalizer *)

Definition _calculate_datetime (now : datetime) (value : string) : outcome datetime :=
  (* Case 1: HH:mm timestamp *)
  except_ValueError
    (parsed_value <- strptime_HM value ;;
     result_date <- datetime_new (year now) (month now) (day now)
                      (hour parsed_value) (minute parsed_value) ;;
     if (hour now <=? hour parsed_value) && (minute now <? minute parsed_value)
     then (delta <- timedelta_new "days" 1 ;; datetime_sub result_date delta)
     else Ok result_date)
  (* Case 2: "Jun13" timestamp *)
  (except_ValueError
    (parsed_value <- strptime_YbD ("1996 " ++ value) ;;
     result_date <- datetime_new (year now) (month parsed_value) (day parsed_value) 0 0 ;;
     if (month now <=? month parsed_value) && (day now <? day parsed_value)
     then (delta <- timedelta_new "years" 1 ;; datetime_sub result_date delta)
     else Ok result_date)
  (* Must be a plain year *)
  (except_ValueError
    (y <- Py.int value ;; datetime_new y 1 1 0 0)
    (Raise (ValueError ("Can not parse datetime: [" ++ value ++ "]"))))).

(** ** Peer records *)

(** The values the program stores in a peer [dict]. *)
Inductive pyval : Type :=
| VNone
| VBool (b : bool)
| VInt (z : Z)
| VStr (s : string)
| VDatetime (d : datetime).

Abbreviation dict := (gmap string pyval).

(** Truth value of a dict: it is false when the dict is empty. *)
Definition dict_truthy (d : dict) : bool := negb (Nat.eqb (size d) 0).

(** [d.update(other)]: the entries of [other] win. *)
Definition update (d other : dict) : dict := other ∪ d.

(** What [a, b = l] and [(a, b, c, d, e) = l] raise when [l] has [n]
    elements instead of [expected]. *)
Definition unpack_error (expected n : nat) : exn :=
  if (n <? expected)%nat then
    ValueError ("need more than "
                  ++ match n with
                     | 0%nat => "0" | 1%nat => "1" | 2%nat => "2" | 3%nat => "3"
                     | _ => "4"
                     end
                  ++ (if Nat.eqb n 1 then " value" else " values")
                  ++ " to unpack")
  else ValueError "too many values to unpack".

(** ** The field tokenizer *)

(** [ignored_field_numbers = [0001, 2002, 0000]]: Python 2 reads a literal
    with a leading zero in base 8, so the list is 1, 2002, 0. *)
Definition ignored_field_numbers : list Z := [ 1; 2002; 0 ].

(** [field_number_re = re.compile('^(\d+)[ -]')] *)
Definition field_number_re : Re.matcher string :=
  Re.seq (fun digits _ => digits) (Re.plus Py.is_digit)
    (Re.class (fun c => Ascii.eqb c " " || Ascii.eqb c "-")).

(** The pattern is anchored at the start of the line, so [findall] has at
    most one match and [sub] removes at most that one. *)
Definition _extract_field_number (line : string) : outcome (option Z * string) :=
  match Re.re_match field_number_re line with
  | Some (digits, cleaned_line) =>
      field_number <- Py.int digits ;;
      Ok (Some field_number, cleaned_line)
  | None => Ok (None, line)
  end.

(** ** The peer summary parser *)

Definition _parse_peer_summary (now : datetime) (line : string) : outcome dict :=
  let elements := Py.split line in
  let '(state, up) :=
    match Py.index elements 5 with
    | Ok state => (VStr state, VBool (String.eqb (Py.lower state) "established"))
    | Raise _ => (VNone, VNone)
    end in
  value <- Py.index elements 4 ;;
  last_change <- _calculate_datetime now value ;;
  name <- Py.index elements 0 ;;
  protocol <- Py.index elements 1 ;;
  Ok (<["name" := VStr name]>
      (<["protocol" := VStr protocol]>
       (<["last_change" := VDatetime last_change]>
        (<["state" := state]>
         (<["up" := up]> ∅))))).

(** ** The route statistics extractor *)

Definition _parse_route_stats (result_dict : dict) (key_name value : string)
  : outcome dict :=
  if String.eqb (Py.strip value) "---" then Ok result_dict
  else (n <- Py.int value ;; Ok (<[key_name := VInt n]> result_dict)).

(** ** The peer detail parser *)

(** [routes_field_re = re.compile('(\d+) imported, (\d+) exported')] *)
Definition routes_field_re : Re.matcher (string * string) :=
  Re.seq (fun imported exported => (imported, exported))
    (Re.plus Py.is_digit)
    (Re.seq (fun _ exported => exported) (Re.literal " imported, ")
       (Re.seq (fun exported _ => exported) (Re.plus Py.is_digit)
          (Re.literal " exported"))).

(** [pattern.findall(s)[0]] *)
Definition findall_0 {A : Type} (m : Re.matcher A) (s : string) : outcome A :=
  match Re.search m s with
  | Some (groups, _) => Ok groups
  | None => Raise IndexError
  end.

Definition route_change_fields : list string :=
  [ "import updates"; "import withdraws"; "export updates"; "export withdraws" ].

Definition in_list (x : string) (l : list string) : bool :=
  existsb (String.eqb x) l.

(** The body of the [for] loop of [_parse_peer_detail]. *)
Definition parse_detail_line (result : dict) (line : string) : outcome dict :=
  let line := Py.strip line in
  match Py.split_once ":" line with
  | [field; value] =>
      let value := Py.strip value in
      result <-
        (if String.eqb (Py.lower field) "routes" then
           routes <- findall_0 routes_field_re value ;;
           imported <- Py.int (fst routes) ;;
           exported <- Py.int (snd routes) ;;
           Ok (<["routes_exported" := VInt exported]>
               (<["routes_imported" := VInt imported]> result))
         else Ok result) ;;
      result <-
        (if in_list (Py.lower field) route_change_fields then
           match Py.split value with
           | [received; rejected; filtered; ignored; accepted] =>
               let key_name_base := Py.replace " " "_" (Py.lower field) in
               result <- _parse_route_stats result (key_name_base ++ "_received") received ;;
               result <- _parse_route_stats result (key_name_base ++ "_rejected") rejected ;;
               result <- _parse_route_stats result (key_name_base ++ "_filtered") filtered ;;
               result <- _parse_route_stats result (key_name_base ++ "_ignored") ignored ;;
               _parse_route_stats result (key_name_base ++ "_accepted") accepted
           | tokens => Raise (unpack_error 5 (length tokens))
           end
         else Ok result) ;;
      Ok (if String.eqb (Py.lower field) "neighbor id"
          then <["router_id" := VStr value]> result
          else result)
  | parts => Raise (unpack_error 2 (length parts))
  end.

Fixpoint parse_detail_lines (result : dict) (lines : list string) : outcome dict :=
  match lines with
  | [] => Ok result
  | line :: lines' =>
      result <- parse_detail_line result line ;;
      parse_detail_lines result lines'
  end.

Definition _parse_peer_detail (peer_detail_raw : list string) : outcome dict :=
  parse_detail_lines ∅ peer_detail_raw.

(** ** The response parser *)

Definition in_ignored (field_number : option Z) : bool :=
  match field_number with
  | Some n => existsb (Z.eqb n) ignored_field_numbers
  | None => false
  end.

Definition is_field (field_number : option Z) (n : Z) : bool :=
  match field_number with
  | Some m => m =? n
  | None => false
  end.

(** [peer_summary['protocol'] != 'BGP'] *)
Definition protocol_is_not_BGP (peer_summary : dict) : bool :=
  match peer_summary !! "protocol" with
  | Some (VStr p) => negb (String.eqb p "BGP")
  | _ => true
  end.

(** The [for line in lineiterator] loop of [_parse_peer_data].  [lines] is
    what the iterator has left; the inner [while] loop draws from the same
    iterator with [lineiterator.next()], which raises [StopIteration] when
    nothing is left, and the [for] loop resumes after the lines it took. *)
Fixpoint parse_peer_lines (now : datetime) (data_contains_detail : bool)
  (lines : list string) (peers : list dict) (peer_summary : option dict)
  {struct lines} : outcome (list dict) :=
  match lines with
  | [] => Ok peers
  | line :: lineiterator =>
      let line := Py.strip line in
      match _extract_field_number line with
      | Raise e => Raise e
      | Ok (field_number, line) =>
          if in_ignored field_number then
            parse_peer_lines now data_contains_detail lineiterator peers peer_summary
          else
            match
              (if is_field field_number 1002 then
                 summary <- _parse_peer_summary now line ;;
                 Ok (if protocol_is_not_BGP summary then (None, true)
                     else (Some summary, false))
               else Ok (peer_summary, false))
            with
            | Raise e => Raise e
            | Ok (peer_summary, true) =>
                parse_peer_lines now data_contains_detail lineiterator peers peer_summary
            | Ok (peer_summary, false) =>
                if negb data_contains_detail then
                  (* [peers.append_peer_summary()]: a list has no such attribute *)
                  Raise AttributeError
                else if is_field field_number 1006 then
                  match peer_summary with
                  | Some summary =>
                      if negb (dict_truthy summary) then
                        parse_peer_lines now data_contains_detail lineiterator
                          peers peer_summary
                      else
                        (fix read_detail (line : string) (peer_detail_raw : list string)
                           (lineiterator : list string) {struct lineiterator}
                           : outcome (list dict) :=
                           if negb (String.eqb (Py.strip line) EmptyString) then
                             match lineiterator with
                             | [] => Raise StopIteration
                             | next :: lineiterator' =>
                                 read_detail next (peer_detail_raw ++ [line])%list
                                   lineiterator'
                             end
                           else
                             match _parse_peer_detail peer_detail_raw with
                             | Raise e => Raise e
                             | Ok peer_detail =>
                                 parse_peer_lines now data_contains_detail lineiterator
                                   (peers ++ [update peer_detail summary])%list None
                             end) line [] lineiterator
                  | None =>
                      parse_peer_lines now data_contains_detail lineiterator
                        peers peer_summary
                  end
                else
                  parse_peer_lines now data_contains_detail lineiterator
                    peers peer_summary
            end
      end
  end.

Definition _parse_peer_data (now : datetime) (data : string)
  (data_contains_detail : bool) : outcome (list dict) :=
  parse_peer_lines now data_contains_detail (Py.splitlines data) [] None.

(** The inner [while] loop on its own: the lines of the block and what the
    iterator has left after the blank line that ends it. *)
Fixpoint read_detail_block (line : string) (peer_detail_raw : list string)
  (lineiterator : list string) : outcome (list string * list string) :=
  if negb (String.eqb (Py.strip line) EmptyString) then
    match lineiterator with
    | [] => Raise StopIteration
    | next :: lineiterator' =>
        read_detail_block next (peer_detail_raw ++ [line])%list lineiterator'
    end
  else Ok (peer_detail_raw, lineiterator).

(** ** The query entry point *)

(** What [get_peer_status] returns: the list of all peers, or one peer. *)
Inductive status : Type :=
| AllPeers (peers : list dict)
| OnePeer (peer : dict).

Definition dquote : string := String (ascii_of_N 34) EmptyString.

Definition peer_count_error : exn :=
  ValueError "Searched for a specific peer, but got multiple returned from BIRD?".

(** [peer_name] is [None] when the argument is left out; [None] and the
    empty string are both false. *)
Definition name_given (peer_name : option string) : bool :=
  match peer_name with
  | Some (String _ _) => true
  | _ => false
  end.

Definition get_peer_status (now : datetime) (_send_query : string -> outcome string)
  (peer_name : option string) : outcome status :=
  let query :=
    if name_given peer_name
    then "show protocols all " ++ dquote
         ++ _clean_input (default EmptyString peer_name) ++ dquote
    else "show protocols all" in
  data <- _send_query query ;;
  peers <- _parse_peer_data now data true ;;
  if negb (name_given peer_name) then Ok (AllPeers peers)
  else if negb (Nat.eqb (length peers) 1) then Raise peer_count_error
  else (peer <- Py.index peers 0 ;; Ok (OnePeer peer)).

(** ** Vocabulary of the properties *)

(** A character that [strip] and [split] keep. *)
Definition not_space (c : ascii) : bool := negb (Py.is_space c).

(** The columns of a route-churn row, in order. *)
Definition route_outcomes : list string :=
  [ "received"; "rejected"; "filtered"; "ignored"; "accepted" ].

(** The key of the counter for a row name and an outcome column. *)
Definition counter_key (field outcome : string) : string :=
  Py.replace " " "_" (Py.lower field) ++ String "_" outcome.

(** An integer literal as [int] takes it from a token: an optional sign and
    a non-empty run of digits. *)
Definition is_signed_decimal (t : string) : bool :=
  Py.is_decimal (snd (Py.split_sign t)).

(** The lines of a detail block that the detail parser cannot take, each
    with the exception it raises; in a row the exception is that of the first
    token [int] rejects. *)
Inductive detail_line_error (line : string) : exn -> Prop :=
| error_routes (field value : string) :
    Py.split_once ":" (Py.strip line) = [field; value] ->
    Py.lower field = "routes" ->
    Re.search routes_field_re (Py.strip value) = None ->
    detail_line_error line IndexError
| error_row_length (field value : string) :
    Py.split_once ":" (Py.strip line) = [field; value] ->
    in_list (Py.lower field) route_change_fields = true ->
    length (Py.split (Py.strip value)) <> 5%nat ->
    detail_line_error line
      (unpack_error 5 (length (Py.split (Py.strip value))))
| error_row_token (field value : string) (before after : list string) (t : string) :
    Py.split_once ":" (Py.strip line) = [field; value] ->
    in_list (Py.lower field) route_change_fields = true ->
    Py.split (Py.strip value) = (before ++ t :: after)%list ->
    length (before ++ t :: after)%list = 5%nat ->
    Forall (fun t' => t' = "---" \/ is_signed_decimal t' = true) before ->
    t <> "---" ->
    is_signed_decimal t = false ->
    detail_line_error line
      (ValueError ("invalid literal for int() with base 10: " ++ Py.repr t)).

(** What the loop does with the detail block that starts at [line], once
    the inner loop is taken out of the outer one. *)
Definition parse_detail_block (now : datetime) (data_contains_detail : bool)
  (peers : list dict) (summary : dict) (line : string) (lineiterator : list string)
  : outcome (list dict) :=
  match read_detail_block line [] lineiterator with
  | Raise e => Raise e
  | Ok (peer_detail_raw, rest) =>
      match _parse_peer_detail peer_detail_raw with
      | Raise e => Raise e
      | Ok peer_detail =>
          parse_peer_lines now data_contains_detail rest
            (peers ++ [update peer_detail summary])%list None
      end
  end.

(** The summary a line leaves pending, and whether the loop goes on to the
    next line at once. *)
Definition summary_step (now : datetime) (field_number : option Z) (line : string)
  (peer_summary : option dict) : outcome (option dict * bool) :=
  if is_field field_number 1002 then
    summary <- _parse_peer_summary now line ;;
    Ok (if protocol_is_not_BGP summary then (None, true) else (Some summary, false))
  else Ok (peer_summary, false).

(** The record [_parse_peer_summary] builds from its columns; [state] is
    the sixth column when the line has one. *)
Definition summary_record (name protocol : string) (last_change : datetime)
  (state : option string) : dict :=
  <["name" := VStr name]>
    (<["protocol" := VStr protocol]>
       (<["last_change" := VDatetime last_change]>
          (<["state" := from_option VStr VNone state]>
             (<["up" := from_option
                          (fun s => VBool (String.eqb (Py.lower s) "established"))
                          VNone state]> ∅)))).

(** An exception other than the one [get_peer_status] raises when it does
    not find exactly one peer. *)
Definition parse_exn (e : exn) : Prop := e <> peer_count_error.

(** What every peer of a response has: a name, the protocol BGP and the
    time of its last change. *)
Definition peer_invariant (peer : dict) : Prop :=
  (exists name, peer !! "name" = Some (VStr name))
  /\ peer !! "protocol" = Some (VStr "BGP")
  /\ (exists last_change, peer !! "last_change" = Some (VDatetime last_change)).

(** The same of the summary that waits for its detail block, if any. *)
Definition summary_invariant (peer_summary : option dict) : Prop :=
  match peer_summary with
  | Some summary => peer_invariant summary
  | None => True
  end.

(** One protocol as the daemon prints it: its summary line, the first line
    of its detail block, the further lines of the block and the blank line
    that ends it. *)
Record protocol_block : Type := mk_block {
  pb_summary : string;
  pb_detail : string;
  pb_more : list string;
  pb_blank : string
}.

(** The lines of a block, as the response has them. *)
Definition block_lines (b : protocol_block) : list string :=
  pb_summary b :: pb_detail b :: (pb_more b ++ [pb_blank b])%list.

(** A line that is no summary line: the parser passes over it while no
    summary is pending. *)
Definition skipped (line : string) : bool :=
  match _extract_field_number (Py.strip line) with
  | Ok (field_number, _) => negb (is_field field_number 1002)
  | Raise _ => false
  end.

(** The peer a block stands for: the summary of a BGP block merged with its
    detail, and nothing for a block of another protocol. *)
Inductive block_peer (now : datetime) (b : protocol_block) : option dict -> Prop :=
| block_bgp (summary_body detail_body : string) (summary peer_detail : dict) :
    _extract_field_number (Py.strip (pb_summary b)) = Ok (Some 1002, summary_body) ->
    _parse_peer_summary now summary_body = Ok summary ->
    protocol_is_not_BGP summary = false ->
    _extract_field_number (Py.strip (pb_detail b)) = Ok (Some 1006, detail_body) ->
    Py.strip detail_body <> EmptyString ->
    Forall (fun l => Py.strip l <> EmptyString) (pb_more b) ->
    Py.strip (pb_blank b) = EmptyString ->
    _parse_peer_detail (detail_body :: pb_more b) = Ok peer_detail ->
    block_peer now b (Some (update peer_detail summary))
| block_other (summary_body : string) (summary : dict) :
    _extract_field_number (Py.strip (pb_summary b)) = Ok (Some 1002, summary_body) ->
    _parse_peer_summary now summary_body = Ok summary ->
    protocol_is_not_BGP summary = true ->
    Forall (fun l => skipped l = true) (pb_detail b :: pb_more b ++ [pb_blank b])%list ->
    block_peer now b None.

(** The peers of a run of blocks, in order. *)
Definition block_peers (outs : list (option dict)) : list dict := omap id outs.

Module Fixture.

Definition newline : string := String (ascii_of_N 10) EmptyString.

(** The text of a reply, each line ended by a newline. *)
Fixpoint text (lines : list string) : string :=
  match lines with
  | [] => EmptyString
  | l :: ls => l ++ newline ++ text ls
  end.

(** 1 December 2011, 20:00. *)
Definition now : datetime := mk_datetime 2011 12 1 20 0 0 0.

(** The lines the daemon prints before and after the protocols. *)
Definition banner : list string :=
  [ "0001 BIRD 1.3.0 ready.";
    "2002-name     proto    table    state  since       info" ].

(** A protocol that is not BGP, and a BGP peer. *)
Definition device : protocol_block :=
  mk_block
    "1002-device1  Device   master   up     14:20"
    "1006-  Preference:     240"
    [ "  Input filter:   ACCEPT";
      "  Output filter:  REJECT";
      "  Routes:         0 imported, 0 exported, 0 preferred" ]
    EmptyString.

Definition ps1 : protocol_block :=
  mk_block
    "1002-PS1      BGP      T_PS1    start  Jun13       Passive"
    "1006-  Description:    Peering AS8954 - InTouch"
    [ "  Preference:     100";
      "  Routes:         24 imported, 23 exported, 0 preferred";
      "  Route change stats:     received   rejected   filtered    ignored   accepted";
      "    Import updates:             50          3          19         0          0";
      "    Import withdraws:            0          0        ---          0          0";
      "    BGP state:          Established";
      "      Neighbor ID:      85.184.4.5";
      "      Neighbor address: 2001:7f8:1::a500:8954:1" ]
    EmptyString.

Definition footer : list string := [ "0000 " ].

(** The summary and the detail of the BGP peer, as records. *)
Definition ps1_summary : dict :=
  summary_record "PS1" "BGP" (mk_datetime 2011 6 13 0 0 0 0) (Some "Passive").

Definition ps1_detail : dict :=
  <["router_id" := VStr "85.184.4.5"]>
    (<["import_withdraws_accepted" := VInt 0]>
       (<["import_withdraws_ignored" := VInt 0]>
          (<["import_withdraws_rejected" := VInt 0]>
             (<["import_withdraws_received" := VInt 0]>
                (<["import_updates_accepted" := VInt 0]>
                   (<["import_updates_ignored" := VInt 0]>
                      (<["import_updates_filtered" := VInt 19]>
                         (<["import_updates_rejected" := VInt 3]>
                            (<["import_updates_received" := VInt 50]>
                               (<["routes_exported" := VInt 23]>
                                  (<["routes_imported" := VInt 24]> ∅))))))))))).

(** The reply to [show protocols all], and to the query for one peer. *)
Definition all_protocols : string :=
  text (banner ++ block_lines device ++ block_lines ps1 ++ footer)%list.

Definition one_protocol : string :=
  text (banner ++ block_lines ps1 ++ footer)%list.

Definition transport (query : string) : outcome string :=
  if String.eqb query "show protocols all" then Ok all_protocols
  else Ok one_protocol.

(** A reply that ends with the last line of a detail block. *)
Definition cut_short : string :=
  text [ "1002-PS1      BGP      T_PS1    start  2004       Passive";
         "1006-  Description:    Peering AS8954 - InTouch";
         "  Preference:     100" ].

End Fixture.

(** The summary parser as the specification words it, with the timestamp
    token in column 3. *)
Definition spec_parse_peer_summary (now : datetime) (line : string) : outcome dict :=
  let columns := Py.split line in
  name <- Py.index columns 0 ;;
  protocol <- Py.index columns 1 ;;
  token <- Py.index columns 3 ;;
  last_change <- _calculate_datetime now token ;;
  Ok (summary_record name protocol last_change (columns !! 5%nat)).

(** The line of the docstring of [_parse_peer_summary]. *)
Definition docstring_line : string :=
  "PS1      BGP      T_PS1    start  Jun13       Passive".

(** A malformed line of a detail block: a routes line in whose value the
    two counts do not occur, a route-churn row that has not five tokens, or a
    row with a token that is neither the placeholder nor an integer.
    [integer] says which tokens are integers: [Py.is_decimal], a run of
    digits, in the words of the specification. *)
Inductive malformed_line (integer : string -> bool) (line : string) : Prop :=
| malformed_routes (field value : string) :
    Py.split_once ":" (Py.strip line) = [field; value] ->
    Py.lower field = "routes" ->
    Re.search routes_field_re (Py.strip value) = None ->
    malformed_line integer line
| malformed_row_length (field value : string) :
    Py.split_once ":" (Py.strip line) = [field; value] ->
    in_list (Py.lower field) route_change_fields = true ->
    length (Py.split (Py.strip value)) <> 5%nat ->
    malformed_line integer line
| malformed_row_token (field value token : string) :
    Py.split_once ":" (Py.strip line) = [field; value] ->
    in_list (Py.lower field) route_change_fields = true ->
    In token (Py.split (Py.strip value)) ->
    token <> "---" ->
    integer token = false ->
    malformed_line integer line.

(** An error that identifies the field and the raw value of the line that
    raised it: two lines that raise the same exception have the same field
    and the same value. *)
Definition error_identifies_line : Prop :=
  forall (line line' field value field' value' : string) (e : exn),
    Py.split_once ":" (Py.strip line) = [field; value] ->
    Py.split_once ":" (Py.strip line') = [field'; value'] ->
    parse_detail_line ∅ line = Raise e ->
    parse_detail_line ∅ line' = Raise e ->
    field = field' /\ value = value'.




(** Three replies: one whose BGP summary has a word where the timestamp
    is, one whose BGP summary has no detail block after it, and one without
    protocols. *)
Definition reply_bad_timestamp : string :=
  Fixture.text
    (Fixture.banner ++ block_lines Fixture.device
       ++ [ "1002-PS1      BGP      T_PS1    start  never       Passive";
            "1006-  Description:    Peering AS8954 - InTouch";
            "  Preference:     100";
            EmptyString ]
       ++ Fixture.footer)%list.


Definition reply_no_peer : string :=
  Fixture.text (Fixture.banner ++ Fixture.footer)%list.

(** The class of an exception, which is what [except] looks at. *)
Definition exn_class (e : exn) : string :=
  match e with
  | IndexError => "IndexError"
  | TypeError => "TypeError"
  | StopIteration => "StopIteration"
  | OverflowError => "OverflowError"
  | AttributeError => "AttributeError"
  | ValueError _ => "ValueError"
  end.

(** An exception of a class that no exception of the response parser
    has. *)
Definition distinct_from_parse_errors (e : exn) : Prop :=
  forall (now : datetime) (data : string) (e' : exn),
    _parse_peer_data now data true = Raise e' -> exn_class e' <> exn_class e.

(** ** Vocabulary of the further properties *)

(** A decimal digit as a character, and a number below 100 in two digits. *)
Definition digit_char (n : Z) : ascii := ascii_of_N (Z.to_N (48 + n)).

Definition two_digit (n : Z) : string :=
  String (digit_char (n / 10)) (String (digit_char (n mod 10)) EmptyString).

(** A clock-time token, [HH:MM]. *)
Definition clock_token (h m : Z) : string :=
  two_digit h ++ ":" ++ two_digit m.

(** The abbreviated month names as the daemon prints them, and a month-day
    token such as [Jun13]. *)
Definition month_abbr : list string :=
  [ "Jan"; "Feb"; "Mar"; "Apr"; "May"; "Jun";
    "Jul"; "Aug"; "Sep"; "Oct"; "Nov"; "Dec" ].

Definition month_token (mon d : Z) : string :=
  nth (Z.to_nat (mon - 1)) month_abbr EmptyString ++ two_digit d.

(** A date of the calendar: what [datetime.now()] can return. *)
Definition valid_date (d : datetime) : Prop :=
  1 <= year d <= 9999
  /\ 1 <= month d <= 12
  /\ 1 <= day d <= Calendar.days_in_month (year d) (month d).

Definition datetime_eqb (a b : datetime) : bool :=
  (year a =? year b) && (month a =? month b) && (day a =? day b)
  && (hour a =? hour b) && (minute a =? minute b) && (second a =? second b)
  && (microsecond a =? microsecond b).

Definition is_ValueError {A : Type} (r : outcome A) : bool :=
  match r with
  | Raise (ValueError _) => true
  | _ => false
  end.

(** [strptime] on the clock token of [h] and [m], and on the month-day token
    of [mon] and [d], checked against the time and the date they stand for. *)
Definition check_clock_token (h m : Z) : bool :=
  match strptime_HM (clock_token h m) with
  | Ok d => datetime_eqb d (mk_datetime 1900 1 1 h m 0 0)
  | Raise _ => false
  end.

Definition check_month_token (mon d : Z) : bool :=
  if d <=? Calendar.days_in_month 1996 mon then
    is_ValueError (strptime_HM (month_token mon d))
    && match strptime_YbD ("1996 " ++ month_token mon d) with
       | Ok t => datetime_eqb t (mk_datetime 1996 mon d 0 0 0 0)
       | Raise _ => false
       end
  else true.

(** The numbers [lo], [lo + 1], ... , [lo + n - 1]. *)
Definition Z_range (lo : Z) (n : nat) : list Z :=
  map (fun i => lo + Z.of_nat i) (List.seq 0 n).

(** The keys of a summary record, and the keys the detail parser can set:
    the two route counts, the router id and a counter for each route-churn
    row and column. *)
Definition summary_keys : list string :=
  [ "name"; "protocol"; "last_change"; "state"; "up" ].

Definition detail_keys : list string :=
  ([ "routes_imported"; "routes_exported"; "router_id" ]
     ++ flat_map (fun field => map (counter_key field) route_outcomes)
          route_change_fields)%list.

(** All keys of [d] are among [keys]. *)
Definition keys_in (d : dict) (keys : list string) : Prop :=
  forall k, d !! k <> None -> In k keys.

(** The command for one peer, with the name between double quotes. *)
Definition query_for_name (name : string) : string :=
  "show protocols all " ++ dquote ++ name ++ dquote.

(** ** The discovery script *)

(** [discover_bgp_peers.py] prints a discovery document for the peers of
    [get_peer_status()]. A run is what it has printed, one string for each
    [print], and the exception that ended it, if any. *)
Inductive script_exn : Type :=
| KeyError (key : string)
| FromQuery (e : exn).

Record script_run : Type := mk_run {
  printed : list string;
  failure : option script_exn
}.

Definition tab : string := String (ascii_of_N 9) EmptyString.
Definition nl : string := String (ascii_of_N 10) EmptyString.

Fixpoint zero_pad (width : nat) (s : string) : string :=
  match width with
  | O => s
  | S w => if (String.length s <? width)%nat then zero_pad w ("0" ++ s) else s
  end.

Definition decimal (z : Z) : string := NilZero.string_of_int (Z.to_int z).

(** [str(v)], which is what [%s] puts into the line. *)
Definition py_str (v : pyval) : string :=
  match v with
  | VNone => "None"
  | VBool true => "True"
  | VBool false => "False"
  | VInt z => decimal z
  | VStr s => s
  | VDatetime d =>
      zero_pad 4 (decimal (year d)) ++ "-" ++ zero_pad 2 (decimal (month d))
        ++ "-" ++ zero_pad 2 (decimal (day d)) ++ " "
        ++ zero_pad 2 (decimal (hour d)) ++ ":" ++ zero_pad 2 (decimal (minute d))
        ++ ":" ++ zero_pad 2 (decimal (second d))
        ++ (if microsecond d =? 0 then EmptyString
            else "." ++ zero_pad 6 (decimal (microsecond d)))
  end.

(** The four lines the script prints for a peer. *)
Definition entry_open (first : bool) : string :=
  if first then tab ++ "{" ++ nl else tab ++ ",{" ++ nl.

Definition entry_peername (description : pyval) : string :=
  tab ++ tab ++ dquote ++ "{#PEERNAME}" ++ dquote ++ ":"
    ++ dquote ++ py_str description ++ dquote ++ "," ++ nl.

Definition entry_protoname (name : pyval) : string :=
  tab ++ tab ++ dquote ++ "{#PROTONAME}" ++ dquote ++ ":"
    ++ dquote ++ py_str name ++ dquote ++ nl.

Definition entry_close : string := tab ++ "}" ++ nl.

(** The [for peer in lineiterator] loop of the script. *)
Fixpoint discover_loop (peers : list dict) (first : bool) (out : list string)
  : script_run :=
  match peers with
  | [] => mk_run out None
  | peer :: peers' =>
      match peer !! "description" with
      | Some description =>
          let out := (out ++ [entry_open first; entry_peername description])%list in
          match peer !! "name" with
          | None => mk_run out (Some (KeyError "name"))
          | Some name =>
              discover_loop peers' false
                (out ++ [entry_protoname name; entry_close])%list
          end
      | None => discover_loop peers' first out
      end
  end.

(** The document without peers: its four lines. *)
Definition document_open : list string :=
  [ "{" ++ nl; tab ++ dquote ++ "data" ++ dquote ++ ":[" ++ nl ++ nl ].

Definition document_close : list string :=
  [ nl ++ tab ++ "]" ++ nl; "}" ++ nl ].

(** The script. [get_peer_status()] without a name returns a list; the
    other case of [status] does not arise and is given no output. *)
Definition discover_bgp_peers (now : datetime) (_send_query : string -> outcome string)
  : script_run :=
  match get_peer_status now _send_query None with
  | Raise e => mk_run [] (Some (FromQuery e))
  | Ok (OnePeer _) => mk_run [] None
  | Ok (AllPeers peers) =>
      let run := discover_loop peers true document_open in
      match failure run with
      | Some e => run
      | None => mk_run (printed run ++ document_close)%list None
      end
  end.

(** A line with one of the ignored field codes. *)
Definition in_ignored_line (line : string) : bool :=
  match _extract_field_number (Py.strip line) with
  | Ok (field_number, _) => in_ignored field_number
  | Raise _ => false
  end.

(** A line that carries neither the summary code nor the detail code: the
    parser passes over it, whether a summary is pending or not. *)
Definition plain_line (line : string) : bool :=
  match _extract_field_number (Py.strip line) with
  | Ok (field_number, _) =>
      negb (is_field field_number 1002) && negb (is_field field_number 1006)
  | Raise _ => false
  end.

(** A line of a detail block with a field the detail parser does not
    know: none of [routes], the four route-churn rows and [neighbor id]. *)
Definition other_field_line (line : string) : bool :=
  match Py.split_once ":" (Py.strip line) with
  | [field; _] =>
      negb (String.eqb (Py.lower field) "routes")
      && negb (in_list (Py.lower field) route_change_fields)
      && negb (String.eqb (Py.lower field) "neighbor id")
  | _ => false
  end.

(** * Properties *)

(** ** Characters and strings *)

Ltac bool_lia :=
  repeat match goal with
    | H : _ && _ = true |- _ => apply andb_prop in H; destruct H
    | H : _ || _ = true |- _ => apply orb_prop in H; destruct H
    | H : (_ <=? _) = true |- _ => apply Z.leb_le in H
    | H : (_ <? _) = true |- _ => apply Z.ltb_lt in H
    | H : (_ =? _) = true |- _ => apply Z.eqb_eq in H
    | H : (_ <=? _) = false |- _ => apply Z.leb_gt in H
    | H : (_ <? _) = false |- _ => apply Z.ltb_ge in H
    | H : (_ =? _) = false |- _ => apply Z.eqb_neq in H
    | |- _ && _ = false => apply andb_false_iff
    | |- _ || _ = false => apply orb_false_iff; split
    | |- (_ <=? _) = false => apply Z.leb_gt
    | |- (_ =? _) = false => apply Z.eqb_neq
    end;
  try lia.

Lemma word_not_space (c : ascii) : Py.is_word c = true -> Py.is_space c = false.
Proof.
  unfold Py.is_word, Py.is_alnum, Py.is_digit, Py.is_upper, Py.is_lower, Py.is_space.
  intros H. bool_lia; destruct (Z.le_gt_cases 9 (Py.code c)); bool_lia.
Qed.

Lemma digit_is_word (c : ascii) : Py.is_digit c = true -> Py.is_word c = true.
Proof.
  unfold Py.is_word, Py.is_alnum. intros ->. reflexivity.
Qed.

Lemma forallb_impl (p q : ascii -> bool) (s : string) :
  (forall c, p c = true -> q c = true) ->
  Py.forallb p s = true -> Py.forallb q s = true.
Proof.
  intros Hpq. induction s as [|c s IH]; simpl; [reflexivity|].
  intros [Hc Hs]%andb_prop. rewrite (Hpq _ Hc), (IH Hs). reflexivity.
Qed.

Lemma lstrip_no_space (s : string) :
  Py.forallb not_space s = true -> Py.lstrip s = s.
Proof.
  destruct s as [|c s]; simpl; [reflexivity|].
  unfold not_space. intros [Hc _]%andb_prop.
  apply negb_true_iff in Hc. rewrite Hc. reflexivity.
Qed.

Lemma rstrip_no_space (s : string) :
  Py.forallb not_space s = true -> Py.rstrip s = s.
Proof.
  induction s as [|c s IH]; simpl; [reflexivity|].
  unfold not_space at 1. intros [Hc Hs]%andb_prop.
  apply negb_true_iff in Hc. rewrite (IH Hs), Hc.
  destruct s; reflexivity.
Qed.

Lemma strip_no_space (s : string) :
  Py.forallb not_space s = true -> Py.strip s = s.
Proof.
  intros H. unfold Py.strip. rewrite (lstrip_no_space _ H). apply rstrip_no_space, H.
Qed.

Lemma word_no_space (s : string) :
  Py.forallb Py.is_word s = true -> Py.forallb not_space s = true.
Proof.
  apply forallb_impl. intros c Hc. unfold not_space.
  rewrite (word_not_space _ Hc). reflexivity.
Qed.

Lemma split_tokens (s : string) :
  Forall (fun t => Py.forallb not_space t = true /\ t <> EmptyString) (Py.split s).
Proof.
  induction s as [|c s IH]; simpl; [constructor|].
  destruct (Py.is_space c) eqn:Hc; [exact IH|].
  assert (Hone : Py.forallb not_space (String c EmptyString) = true
                 /\ String c EmptyString <> EmptyString).
  { split; [|discriminate]. simpl. unfold not_space. rewrite Hc. reflexivity. }
  destruct s as [|c' s']; [constructor; [exact Hone | constructor]|].
  destruct (Py.is_space c') eqn:Hc'; [constructor; [exact Hone | exact IH]|].
  destruct (Py.split (String c' s')) as [|t ts]; simpl.
  - constructor; [exact Hone | constructor].
  - apply Forall_cons in IH as [[Ht _] Hts]. constructor; [|exact Hts].
    split; [|discriminate]. simpl. unfold not_space at 1. rewrite Hc, Ht. reflexivity.
Qed.

(** ** The sanitizer *)

Lemma clean_input_re_sub_word (s : string) :
  Py.forallb Py.is_word (clean_input_re_sub s) = true.
Proof.
  induction s as [|c s IH]; simpl; [reflexivity|].
  destruct (Py.is_word c) eqn:Hc; simpl; [rewrite Hc|]; exact IH.
Qed.

Lemma clean_input_re_sub_fixed (s : string) :
  Py.forallb Py.is_word s = true -> clean_input_re_sub s = s.
Proof.
  induction s as [|c s IH]; simpl; [reflexivity|].
  intros [Hc Hs]%andb_prop. rewrite Hc, (IH Hs). reflexivity.
Qed.

Lemma clean_input_unfold (s : string) : _clean_input s = clean_input_re_sub s.
Proof.
  unfold _clean_input. apply strip_no_space, word_no_space, clean_input_re_sub_word.
Qed.

(** C10. The peer name sanitizer is idempotent, and its output has only
    characters of [[A-Za-z0-9_]]. *)
Theorem clean_input_idempotent (s : string) :
  _clean_input (_clean_input s) = _clean_input s
  /\ Py.forallb Py.is_word (_clean_input s) = true.
Proof.
  rewrite !clean_input_unfold. split.
  - apply clean_input_re_sub_fixed, clean_input_re_sub_word.
  - apply clean_input_re_sub_word.
Qed.

(** ** Decimal tokens and [int] *)

Lemma digit_no_space (s : string) :
  Py.forallb Py.is_digit s = true -> Py.forallb not_space s = true.
Proof.
  intros H. apply word_no_space. revert H. apply forallb_impl, digit_is_word.
Qed.

Lemma digit_not_sign (c : ascii) :
  Py.is_digit c = true -> c <> "-"%char /\ c <> "+"%char.
Proof.
  intros H. split; intros ->; vm_compute in H; discriminate.
Qed.

Lemma digit_split_sign (c : ascii) (t : string) :
  Py.is_digit c = true -> Py.split_sign (String c t) = (false, String c t).
Proof.
  intros [Hm Hp]%digit_not_sign. unfold Py.split_sign.
  destruct (Ascii.eqb_spec c "-"); [congruence|].
  destruct (Ascii.eqb_spec c "+"); [congruence|]. reflexivity.
Qed.

Lemma int_decimal (t : string) :
  Py.is_decimal t = true -> Py.int t = Ok (Py.digits_val 0 t).
Proof.
  intros H. unfold Py.int. destruct t as [|c t]; [discriminate|].
  pose proof H as H'. simpl in H'.
  rewrite (strip_no_space (String c t)) by (apply digit_no_space, H').
  apply andb_prop in H' as [Hc _]. rewrite (digit_split_sign _ _ Hc), H.
  reflexivity.
Qed.

Lemma decimal_not_placeholder (t : string) :
  Py.is_decimal t = true -> String.eqb (Py.strip t) "---" = false.
Proof.
  destruct t as [|c t]; [discriminate|]. intros H. simpl in H.
  rewrite (strip_no_space (String c t)) by (apply digit_no_space, H).
  apply andb_prop in H as [Hc _]. apply digit_not_sign in Hc as [Hm _].
  apply String.eqb_neq. congruence.
Qed.

Lemma int_not_signed_decimal (t : string) :
  Py.forallb not_space t = true ->
  is_signed_decimal t = false ->
  Py.int t = Raise (ValueError ("invalid literal for int() with base 10: " ++ Py.repr t)).
Proof.
  intros Hns Hsd. unfold Py.int. rewrite (strip_no_space _ Hns).
  unfold is_signed_decimal in Hsd.
  destruct (Py.split_sign t) as [neg body]. simpl in Hsd. rewrite Hsd. reflexivity.
Qed.

Lemma int_signed_decimal (t : string) :
  Py.forallb not_space t = true ->
  is_signed_decimal t = true -> exists n, Py.int t = Ok n.
Proof.
  intros Hns Hsd. unfold Py.int. rewrite (strip_no_space _ Hns).
  unfold is_signed_decimal in Hsd.
  destruct (Py.split_sign t) as [neg body]. simpl in Hsd. rewrite Hsd.
  eexists. reflexivity.
Qed.

(** ** The route statistics extractor *)

Lemma string_app_inv_head (p a b : string) : p ++ a = p ++ b -> a = b.
Proof.
  induction p as [|c p IH]; simpl; [trivial|]. intros [= H]. apply IH, H.
Qed.

Lemma parse_route_stats_token (result_dict : dict) (key_name token : string) :
  token = "---" \/ Py.is_decimal token = true ->
  exists result',
    _parse_route_stats result_dict key_name token = Ok result'
    /\ (forall k, k <> key_name -> result' !! k = result_dict !! k)
    /\ (token = "---" -> result' !! key_name = result_dict !! key_name)
    /\ (Py.is_decimal token = true ->
        result' !! key_name = Some (VInt (Py.digits_val 0 token))).
Proof.
  intros [-> | Hdec]; unfold _parse_route_stats.
  - exists result_dict. simpl. repeat split; auto. discriminate.
  - rewrite (decimal_not_placeholder _ Hdec), (int_decimal _ Hdec). simpl.
    eexists. split; [reflexivity|]. repeat split.
    + intros k Hk. apply lookup_insert_ne. congruence.
    + intros ->. discriminate.
    + intros _. apply lookup_insert_eq.
Qed.

Lemma parse_route_stats_bad_token (result_dict : dict) (key_name t : string) :
  Py.forallb not_space t = true ->
  t <> "---" ->
  is_signed_decimal t = false ->
  _parse_route_stats result_dict key_name t
  = Raise (ValueError ("invalid literal for int() with base 10: " ++ Py.repr t)).
Proof.
  intros Hns Hp Hsd. unfold _parse_route_stats.
  rewrite (strip_no_space _ Hns).
  destruct (String.eqb_spec t "---") as [->|_]; [congruence|].
  rewrite (int_not_signed_decimal _ Hns Hsd). reflexivity.
Qed.

Lemma parse_route_stats_good_token (result_dict : dict) (key_name t : string) :
  Py.forallb not_space t = true ->
  t = "---" \/ is_signed_decimal t = true ->
  exists result', _parse_route_stats result_dict key_name t = Ok result'.
Proof.
  intros Hns [-> | Hsd]; unfold _parse_route_stats.
  - eexists. reflexivity.
  - destruct (String.eqb (Py.strip t) "---"); [eexists; reflexivity|].
    destruct (int_signed_decimal _ Hns Hsd) as [n ->]. eexists. reflexivity.
Qed.

Lemma route_change_field_cases (f : string) :
  in_list f route_change_fields = true ->
  String.eqb f "routes" = false /\ String.eqb f "neighbor id" = false.
Proof.
  unfold in_list, route_change_fields. simpl. intros H.
  repeat (apply orb_prop in H as [H%String.eqb_eq | H]; [subst f; split; reflexivity|]).
  discriminate.
Qed.

(** C6. A route-churn row of five tokens, each the placeholder or a
    decimal integer, is accepted; the key of a placeholder column is left as
    it was (absent, in a fresh record), and the key of a numeric column holds
    the integer of the row. *)
Theorem route_churn_row_counters (result : dict) (line field value : string)
    (tokens : list string) :
  Py.split_once ":" (Py.strip line) = [field; value] ->
  in_list (Py.lower field) route_change_fields = true ->
  Py.split (Py.strip value) = tokens ->
  length tokens = 5%nat ->
  Forall (fun t => t = "---" \/ Py.is_decimal t = true) tokens ->
  exists result',
    parse_detail_line result line = Ok result'
    /\ forall (k : nat) (token outcome : string),
        tokens !! k = Some token ->
        route_outcomes !! k = Some outcome ->
        (token = "---" ->
         result' !! counter_key field outcome = result !! counter_key field outcome)
        /\ (Py.is_decimal token = true ->
            result' !! counter_key field outcome = Some (VInt (Py.digits_val 0 token))).
Proof.
  intros Hsplit Hfield Htokens Hlen Hall.
  destruct tokens as [|t0 [|t1 [|t2 [|t3 [|t4 [|? ?]]]]]]; try discriminate.
  apply Forall_cons in Hall as [H0 Hall]. apply Forall_cons in Hall as [H1 Hall].
  apply Forall_cons in Hall as [H2 Hall]. apply Forall_cons in Hall as [H3 Hall].
  apply Forall_cons in Hall as [H4 _].
  destruct (route_change_field_cases _ Hfield) as [Hroutes Hneighbor].
  unfold parse_detail_line. rewrite Hsplit, Hroutes, Hfield, Hneighbor, Htokens.
  simpl bind at 1.
  set (base := Py.replace " " "_" (Py.lower field)).
  destruct (parse_route_stats_token result (base ++ "_received") t0 H0)
    as (r1 & -> & Hne1 & Hp1 & Hd1).
  destruct (parse_route_stats_token r1 (base ++ "_rejected") t1 H1)
    as (r2 & E2 & Hne2 & Hp2 & Hd2).
  destruct (parse_route_stats_token r2 (base ++ "_filtered") t2 H2)
    as (r3 & E3 & Hne3 & Hp3 & Hd3).
  destruct (parse_route_stats_token r3 (base ++ "_ignored") t3 H3)
    as (r4 & E4 & Hne4 & Hp4 & Hd4).
  destruct (parse_route_stats_token r4 (base ++ "_accepted") t4 H4)
    as (r5 & E5 & Hne5 & Hp5 & Hd5).
  simpl. rewrite E2. simpl. rewrite E3. simpl. rewrite E4. simpl. rewrite E5. simpl.
  exists r5. split; [reflexivity|].
  assert (Hkey : forall a b : string, a <> b -> base ++ a <> base ++ b).
  { intros a b Hab Heq. apply Hab. eapply string_app_inv_head, Heq. }
  intros k token outcome Hk Ho. unfold counter_key. fold base.
  destruct k as [|[|[|[|[|k]]]]]; cbn in Hk, Ho; try discriminate;
    inversion Hk; inversion Ho; subst token outcome.
  - rewrite Hne5, Hne4, Hne3, Hne2 by (apply Hkey; discriminate). auto.
  - rewrite Hne5, Hne4, Hne3 by (apply Hkey; discriminate).
    rewrite <- (Hne1 (base ++ "_rejected")) by (apply Hkey; discriminate). auto.
  - rewrite Hne5, Hne4 by (apply Hkey; discriminate).
    rewrite <- (Hne1 (base ++ "_filtered")), <- (Hne2 (base ++ "_filtered"))
      by (apply Hkey; discriminate). auto.
  - rewrite Hne5 by (apply Hkey; discriminate).
    rewrite <- (Hne1 (base ++ "_ignored")), <- (Hne2 (base ++ "_ignored")),
      <- (Hne3 (base ++ "_ignored")) by (apply Hkey; discriminate). auto.
  - rewrite <- (Hne1 (base ++ "_accepted")), <- (Hne2 (base ++ "_accepted")),
      <- (Hne3 (base ++ "_accepted")), <- (Hne4 (base ++ "_accepted"))
      by (apply Hkey; discriminate). auto.
Qed.

(** The theorem on a row of the fixture with a placeholder in the third
    column. *)
Lemma route_churn_row_counters_witness :
  exists result',
    parse_detail_line ∅
      "    Import withdraws:            0          0        ---          0          0"
    = Ok result'
    /\ forall (k : nat) (token outcome : string),
        [ "0"; "0"; "---"; "0"; "0" ] !! k = Some token ->
        route_outcomes !! k = Some outcome ->
        (token = "---" ->
         result' !! counter_key "Import withdraws" outcome
         = (∅ : dict) !! counter_key "Import withdraws" outcome)
        /\ (Py.is_decimal token = true ->
            result' !! counter_key "Import withdraws" outcome
            = Some (VInt (Py.digits_val 0 token))).
Proof.
  apply (route_churn_row_counters ∅ _ "Import withdraws"
           "            0          0        ---          0          0").
  - vm_compute. reflexivity.
  - vm_compute. reflexivity.
  - vm_compute. reflexivity.
  - reflexivity.
  - repeat constructor; (left; reflexivity) || (right; reflexivity).
Defined.

(** ** The timestamp normalizer on the examples of the specification *)

Example clock_time_earlier_now :
  _calculate_datetime (mk_datetime 2011 6 13 10 0 0 0) "14:50"
  = Ok (mk_datetime 2011 6 12 14 50 0 0).
Proof. vm_compute. reflexivity. Qed.

Example clock_time_later_now :
  _calculate_datetime (mk_datetime 2011 6 13 20 0 0 0) "14:50"
  = Ok (mk_datetime 2011 6 13 14 50 0 0).
Proof. vm_compute. reflexivity. Qed.

(** C1. At 10:55 the token 14:50 is later than now's time of day, yet the
    normalizer answers today at 14:50: it subtracts the day only when the
    hour and the minute of now are each below those of the token. *)
Theorem clock_time_later_today_kept :
  _calculate_datetime (mk_datetime 2011 6 13 10 55 0 0) "14:50"
  = Ok (mk_datetime 2011 6 13 14 50 0 0).
Proof. vm_compute. reflexivity. Qed.

Example month_day_december :
  _calculate_datetime (mk_datetime 2011 12 1 12 0 0 0) "Jun13"
  = Ok (mk_datetime 2011 6 13 0 0 0 0).
Proof. vm_compute. reflexivity. Qed.

Example month_day_leap_in_plain_year :
  _calculate_datetime (mk_datetime 2011 12 1 12 0 0 0) "Feb29"
  = Raise (ValueError "Can not parse datetime: [Feb29]").
Proof. vm_compute. reflexivity. Qed.

(** C2. On 1 May the token Jun13 is later than now's month and day; the
    normalizer then builds [timedelta(years=1)], which is a [TypeError], and
    returns no date. *)
Theorem month_day_later_raises :
  _calculate_datetime (mk_datetime 2011 5 1 12 0 0 0) "Jun13" = Raise TypeError.
Proof. vm_compute. reflexivity. Qed.

(** ** The peer summary parser *)

Lemma parse_peer_summary_columns (now : datetime) (line : string)
    (name protocol value : string) (last_change : datetime) :
  Py.split line !! 0%nat = Some name ->
  Py.split line !! 1%nat = Some protocol ->
  Py.split line !! 4%nat = Some value ->
  _calculate_datetime now value = Ok last_change ->
  _parse_peer_summary now line
  = Ok (summary_record name protocol last_change (Py.split line !! 5%nat)).
Proof.
  intros H0 H1 H4 Hlc. unfold _parse_peer_summary, Py.index, summary_record.
  rewrite H0, H1, H4.
  destruct (Py.split line !! 5%nat) as [state|]; simpl; rewrite Hlc; reflexivity.
Qed.

Lemma parse_peer_summary_record (now : datetime) (line : string)
    (name protocol value : string) (last_change : datetime) (state : option string) :
  Py.split line !! 0%nat = Some name ->
  Py.split line !! 1%nat = Some protocol ->
  Py.split line !! 4%nat = Some value ->
  _calculate_datetime now value = Ok last_change ->
  Py.split line !! 5%nat = state ->
  _parse_peer_summary now line = Ok (summary_record name protocol last_change state).
Proof.
  intros H0 H1 H4 Hlc <-. apply (parse_peer_summary_columns _ _ _ _ value); assumption.
Qed.

Lemma parse_peer_summary_inv (now : datetime) (line : string) (summary : dict) :
  _parse_peer_summary now line = Ok summary ->
  exists (name protocol value : string) (last_change : datetime),
    Py.split line !! 0%nat = Some name
    /\ Py.split line !! 1%nat = Some protocol
    /\ Py.split line !! 4%nat = Some value
    /\ _calculate_datetime now value = Ok last_change
    /\ summary = summary_record name protocol last_change (Py.split line !! 5%nat).
Proof.
  unfold _parse_peer_summary, Py.index, summary_record.
  destruct (Py.split line !! 5%nat) as [state|];
    (destruct (Py.split line !! 4%nat) as [value|] eqn:H4; [|discriminate];
     cbn [bind];
     destruct (_calculate_datetime now value) as [lc|e] eqn:Hlc; [|discriminate];
     cbn [bind];
     destruct (Py.split line !! 0%nat) as [name|] eqn:H0; [|discriminate];
     cbn [bind];
     destruct (Py.split line !! 1%nat) as [protocol|] eqn:H1; [|discriminate];
     cbn [bind]; intros [= <-];
     exists name, protocol, value, lc; repeat split; first [assumption | reflexivity]).
Qed.

Lemma summary_record_lookup (name protocol : string) (last_change : datetime)
    (state : option string) :
  let summary := summary_record name protocol last_change state in
  summary !! "name" = Some (VStr name)
  /\ summary !! "protocol" = Some (VStr protocol)
  /\ summary !! "last_change" = Some (VDatetime last_change)
  /\ summary !! "state" = Some (from_option VStr VNone state)
  /\ summary !! "up"
     = Some (from_option (fun s => VBool (String.eqb (Py.lower s) "established"))
               VNone state).
Proof.
  unfold summary_record. repeat split; by simplify_map_eq.
Qed.

(** On the line of the docstring the parser reads the timestamp Jun13 in
    column 4; read from column 3 the token would be the word start, which is
    no timestamp. *)
Lemma summary_column_3_differs :
  _parse_peer_summary Fixture.now docstring_line
  <> spec_parse_peer_summary Fixture.now docstring_line.
Proof.
  intros H. apply (f_equal is_Ok) in H. vm_compute in H. discriminate.
Qed.

(** C3. The summary parser splits the line on runs of whitespace; column 0
    is the name, column 1 the protocol, column 4 the timestamp token given to
    the normalizer and column 5, when the line has one, the state; [up] is
    true exactly when the state, in lower case, is "established". *)
Theorem parse_peer_summary_fields (now : datetime) (line : string)
    (name protocol token : string) (last_change : datetime) :
  Py.split line !! 0%nat = Some name ->
  Py.split line !! 1%nat = Some protocol ->
  Py.split line !! 4%nat = Some token ->
  _calculate_datetime now token = Ok last_change ->
  exists summary,
    _parse_peer_summary now line = Ok summary
    /\ summary !! "name" = Some (VStr name)
    /\ summary !! "protocol" = Some (VStr protocol)
    /\ summary !! "last_change" = Some (VDatetime last_change)
    /\ summary !! "state" = Some (from_option VStr VNone (Py.split line !! 5%nat))
    /\ (summary !! "up" = Some (VBool true)
        <-> exists state,
          Py.split line !! 5%nat = Some state /\ Py.lower state = "established").
Proof.
  intros H0 H1 H4 Hlc. eexists. split.
  { apply (parse_peer_summary_columns now line name protocol token last_change);
      assumption. }
  pose proof (summary_record_lookup name protocol last_change (Py.split line !! 5%nat))
    as (Hn & Hp & Hl & Hs & Hu).
  repeat split; try assumption.
  - rewrite Hu. destruct (Py.split line !! 5%nat) as [state|]; [|discriminate].
    simpl. intros [= H]. exists state. split; [reflexivity|]. apply String.eqb_eq, H.
  - intros (state & Hstate & Hest). rewrite Hu, Hstate. simpl.
    rewrite Hest. reflexivity.
Qed.

(** The theorem on the line of the docstring. *)
Lemma parse_peer_summary_fields_witness :
  exists summary,
    _parse_peer_summary Fixture.now docstring_line = Ok summary
    /\ summary !! "name" = Some (VStr "PS1")
    /\ summary !! "protocol" = Some (VStr "BGP")
    /\ summary !! "last_change" = Some (VDatetime (mk_datetime 2011 6 13 0 0 0 0))
    /\ summary !! "state"
       = Some (from_option VStr VNone (Py.split docstring_line !! 5%nat))
    /\ (summary !! "up" = Some (VBool true)
        <-> exists state,
          Py.split docstring_line !! 5%nat = Some state
          /\ Py.lower state = "established").
Proof.
  apply (parse_peer_summary_fields Fixture.now docstring_line "PS1" "BGP" "Jun13");
    vm_compute; reflexivity.
Defined.

(** ** Summary lines without a state *)

(** Without a fifth column the timestamp is missing: [elements[4]] raises. *)
Lemma parse_peer_summary_short (now : datetime) (line : string) :
  (length (Py.split line) < 5)%nat -> _parse_peer_summary now line = Raise IndexError.
Proof.
  intros Hlen. unfold _parse_peer_summary, Py.index.
  rewrite (lookup_ge_None_2 (Py.split line) 5) by lia.
  rewrite (lookup_ge_None_2 (Py.split line) 4) by lia. reflexivity.
Qed.

(** A line of four columns has fewer than six, and the parser raises. *)
Lemma summary_four_columns_raises :
  ~ (forall (now : datetime) (line : string),
        (length (Py.split line) < 6)%nat ->
        exists summary,
          _parse_peer_summary now line = Ok summary
          /\ summary !! "state" = Some VNone
          /\ summary !! "up" = Some VNone).
Proof.
  intros H.
  destruct (H Fixture.now "PS1 BGP T_PS1 start") as (summary & Hs & _).
  { vm_compute. lia. }
  rewrite parse_peer_summary_short in Hs by (vm_compute; lia). discriminate.
Qed.

(** C9. For a summary line of exactly five columns whose timestamp token,
    column 4, the normalizer accepts, the summary parser returns a record in
    which [state] and [up] are [None]. *)
Theorem parse_peer_summary_no_state (now : datetime) (line token : string)
    (last_change : datetime) :
  length (Py.split line) = 5%nat ->
  Py.split line !! 4%nat = Some token ->
  _calculate_datetime now token = Ok last_change ->
  exists summary,
    _parse_peer_summary now line = Ok summary
    /\ summary !! "state" = Some VNone
    /\ summary !! "up" = Some VNone.
Proof.
  intros Hlen H4 Hlc.
  destruct (Py.split line) as [|name [|protocol columns]] eqn:Hsplit;
    try (simpl in Hlen; lia).
  assert (H5 : (name :: protocol :: columns) !! 5%nat = None)
    by (apply lookup_ge_None_2; lia).
  eexists. split.
  { apply (parse_peer_summary_columns now line name protocol token last_change);
      rewrite ?Hsplit; try reflexivity; assumption. }
  rewrite Hsplit, H5.
  pose proof (summary_record_lookup name protocol last_change None)
    as (_ & _ & _ & Hs & Hu).
  split; assumption.
Qed.

(** The theorem on the summary line of a device protocol, which has five
    columns. *)
Lemma parse_peer_summary_no_state_witness :
  exists summary,
    _parse_peer_summary Fixture.now "device1  Device   master   up     14:20"
    = Ok summary
    /\ summary !! "state" = Some VNone
    /\ summary !! "up" = Some VNone.
Proof.
  apply (parse_peer_summary_no_state Fixture.now _ "14:20"
           (mk_datetime 2011 12 1 14 20 0 0));
    vm_compute; reflexivity.
Defined.

(** ** The response parser, one line at a time *)

Lemma read_detail_unfold (now : datetime) (data_contains_detail : bool)
    (peers : list dict) (summary : dict) (lineiterator : list string) :
  forall (line : string) (peer_detail_raw : list string),
    (fix read_detail (line : string) (peer_detail_raw : list string)
       (lineiterator : list string) {struct lineiterator} : outcome (list dict) :=
       if negb (String.eqb (Py.strip line) EmptyString) then
         match lineiterator with
         | [] => Raise StopIteration
         | next :: lineiterator' =>
             read_detail next (peer_detail_raw ++ [line])%list lineiterator'
         end
       else
         match _parse_peer_detail peer_detail_raw with
         | Raise e => Raise e
         | Ok peer_detail =>
             parse_peer_lines now data_contains_detail lineiterator
               (peers ++ [update peer_detail summary])%list None
         end) line peer_detail_raw lineiterator
    = match read_detail_block line peer_detail_raw lineiterator with
      | Raise e => Raise e
      | Ok (peer_detail_raw, rest) =>
          match _parse_peer_detail peer_detail_raw with
          | Raise e => Raise e
          | Ok peer_detail =>
              parse_peer_lines now data_contains_detail rest
                (peers ++ [update peer_detail summary])%list None
          end
      end.
Proof.
  induction lineiterator as [|next rest IH]; intros line raw.
  - simpl. destruct (negb (String.eqb (Py.strip line) EmptyString)); reflexivity.
  - cbn [read_detail_block]. destruct (negb (String.eqb (Py.strip line) EmptyString)).
    + apply IH.
    + reflexivity.
Qed.

(** One turn of the outer loop, with the inner loop as [read_detail_block]. *)
Lemma parse_peer_lines_cons (now : datetime) (data_contains_detail : bool)
    (line : string) (lineiterator : list string) (peers : list dict)
    (peer_summary : option dict) :
  parse_peer_lines now data_contains_detail (line :: lineiterator) peers peer_summary
  = match _extract_field_number (Py.strip line) with
    | Raise e => Raise e
    | Ok (field_number, line) =>
        if in_ignored field_number then
          parse_peer_lines now data_contains_detail lineiterator peers peer_summary
        else
          match summary_step now field_number line peer_summary with
          | Raise e => Raise e
          | Ok (peer_summary, true) =>
              parse_peer_lines now data_contains_detail lineiterator peers peer_summary
          | Ok (peer_summary, false) =>
              if negb data_contains_detail then Raise AttributeError
              else if is_field field_number 1006 then
                match peer_summary with
                | Some summary =>
                    if negb (dict_truthy summary) then
                      parse_peer_lines now data_contains_detail lineiterator
                        peers peer_summary
                    else
                      parse_detail_block now data_contains_detail peers summary
                        line lineiterator
                | None =>
                    parse_peer_lines now data_contains_detail lineiterator
                      peers peer_summary
                end
              else
                parse_peer_lines now data_contains_detail lineiterator
                  peers peer_summary
          end
    end.
Proof.
  cbn [parse_peer_lines]. unfold summary_step, parse_detail_block.
  destruct (_extract_field_number (Py.strip line)) as [[field_number body]|e];
    [|reflexivity].
  destruct (in_ignored field_number); [reflexivity|].
  destruct (if is_field field_number 1002 then _ else _) as [[summary' []]|e];
    try reflexivity.
  destruct (negb data_contains_detail); [reflexivity|].
  destruct (is_field field_number 1006); [|reflexivity].
  destruct summary' as [summary|]; [|reflexivity].
  destruct (negb (dict_truthy summary)); [reflexivity|].
  apply read_detail_unfold.
Qed.

Lemma read_detail_block_length (lineiterator : list string) :
  forall (line : string) (raw raw' rest : list string),
    read_detail_block line raw lineiterator = Ok (raw', rest) ->
    (length rest <= length lineiterator)%nat.
Proof.
  induction lineiterator as [|next it IH]; intros line raw raw' rest; simpl.
  - destruct (negb (String.eqb (Py.strip line) EmptyString)); [discriminate|].
    intros [= _ <-]. reflexivity.
  - destruct (negb (String.eqb (Py.strip line) EmptyString)).
    + intros H%IH. lia.
    + intros [= _ <-]. reflexivity.
Qed.

Lemma read_detail_block_blank (line : string) (raw it : list string) :
  Py.strip line = EmptyString -> read_detail_block line raw it = Ok (raw, it).
Proof. intros H. destruct it; simpl; rewrite H; reflexivity. Qed.

Lemma read_detail_block_run (more : list string) :
  forall (line blank : string) (raw it : list string),
    Py.strip line <> EmptyString ->
    Forall (fun l => Py.strip l <> EmptyString) more ->
    Py.strip blank = EmptyString ->
    read_detail_block line raw (more ++ blank :: it)
    = Ok ((raw ++ line :: more)%list, it).
Proof.
  induction more as [|next more IH]; intros line blank raw it Hline Hmore Hblank.
  - cbn [app read_detail_block].
    destruct (String.eqb_spec (Py.strip line) EmptyString); [congruence|].
    cbn [negb]. apply read_detail_block_blank, Hblank.
  - apply Forall_cons in Hmore as [Hnext Hmore].
    cbn [app read_detail_block].
    destruct (String.eqb_spec (Py.strip line) EmptyString); [congruence|].
    cbn [negb]. rewrite (IH next blank _ it Hnext Hmore Hblank).
    rewrite <- app_assoc. reflexivity.
Qed.

(** ** The end of the input inside a detail block *)

(** C5. When the input ends with a line of the detail block of a BGP peer,
    the response parser raises [StopIteration]. *)
Theorem detail_block_at_end_of_input :
  _parse_peer_data Fixture.now Fixture.cut_short true = Raise StopIteration.
Proof. vm_compute. reflexivity. Qed.

(** ** Malformed lines of a detail block *)

Lemma detail_line_error_raises (result : dict) (line : string) (e : exn) :
  detail_line_error line e -> parse_detail_line result line = Raise e.
Proof.
  intros [field value Hsplit Hfield Hsearch
         | field value Hsplit Hfield Hlen
         | field value before after t Hsplit Hfield Htokens Hlen Hbefore Hp Hsd];
    unfold parse_detail_line; rewrite Hsplit.
  - rewrite Hfield. unfold findall_0. rewrite Hsearch. reflexivity.
  - destruct (route_change_field_cases _ Hfield) as [-> _]. rewrite Hfield.
    simpl bind at 1.
    destruct (Py.split (Py.strip value)) as [|t0 [|t1 [|t2 [|t3 [|t4 [|? ?]]]]]];
      try reflexivity.
    simpl in Hlen. congruence.
  - destruct (route_change_field_cases _ Hfield) as [-> _]. rewrite Hfield.
    simpl bind at 1.
    pose proof (split_tokens (Py.strip value)) as Htok. rewrite Htokens in *.
    assert (Ht : Py.forallb not_space t = true).
    { apply Forall_app in Htok as [_ Htok]. apply Forall_cons in Htok as [[Ht _] _].
      exact Ht. }
    assert (Hgood : forall (r : dict) (k t' : string),
               In t' before -> exists r', _parse_route_stats r k t' = Ok r').
    { intros r k t' Hin. apply parse_route_stats_good_token.
      - apply Forall_app in Htok as [Htok _].
        rewrite Forall_forall in Htok. apply Htok, list_elem_of_In, Hin.
      - rewrite Forall_forall in Hbefore. apply Hbefore, list_elem_of_In, Hin. }
    pose proof (fun r k => parse_route_stats_bad_token r k t Ht Hp Hsd) as Hbad.
    clear Htokens Htok Hbefore Hsplit.
    destruct before as [|b0 before]; simpl in *.
    { destruct after as [|? [|? [|? [|? [|? ?]]]]]; try discriminate.
      rewrite Hbad. reflexivity. }
    destruct (Hgood result (Py.replace " " "_" (Py.lower field) ++ "_received") b0)
      as [r1 E1]; [auto|].
    destruct before as [|b1 before]; simpl in *.
    { destruct after as [|? [|? [|? [|? ?]]]]; try discriminate.
      rewrite E1. simpl. rewrite Hbad. reflexivity. }
    destruct (Hgood r1 (Py.replace " " "_" (Py.lower field) ++ "_rejected") b1)
      as [r2 E2]; [auto|].
    destruct before as [|b2 before]; simpl in *.
    { destruct after as [|? [|? [|? ?]]]; try discriminate.
      rewrite E1. simpl. rewrite E2. simpl. rewrite Hbad. reflexivity. }
    destruct (Hgood r2 (Py.replace " " "_" (Py.lower field) ++ "_filtered") b2)
      as [r3 E3]; [auto|].
    destruct before as [|b3 before]; simpl in *.
    { destruct after as [|? [|? ?]]; try discriminate.
      rewrite E1. simpl. rewrite E2. simpl. rewrite E3. simpl. rewrite Hbad.
      reflexivity. }
    destruct (Hgood r3 (Py.replace " " "_" (Py.lower field) ++ "_ignored") b3)
      as [r4 E4]; [auto|].
    destruct before as [|b4 before]; simpl in *.
    { destruct after as [|? ?]; try discriminate.
      rewrite E1. simpl. rewrite E2. simpl. rewrite E3. simpl. rewrite E4. simpl.
      rewrite Hbad. reflexivity. }
    exfalso. rewrite length_app in Hlen. simpl in Hlen. lia.
Qed.

Lemma parse_detail_lines_raises (raw : list string) (line : string) (e : exn) :
  In line raw ->
  (forall result, parse_detail_line result line = Raise e) ->
  forall result, exists e', parse_detail_lines result raw = Raise e'.
Proof.
  intros Hin Hline. induction raw as [|l raw IH]; intros result; [destruct Hin|].
  simpl. destruct Hin as [-> | Hin].
  - rewrite Hline. eexists. reflexivity.
  - destruct (parse_detail_line result l) as [r|e']; [|eexists; reflexivity].
    apply (IH Hin).
Qed.

Lemma first_rejected_token (tokens : list string) (t : string) :
  In t tokens -> t <> "---" -> is_signed_decimal t = false ->
  exists (before after : list string) (t' : string),
    tokens = (before ++ t' :: after)%list
    /\ Forall (fun x => x = "---" \/ is_signed_decimal x = true) before
    /\ t' <> "---" /\ is_signed_decimal t' = false.
Proof.
  intros Hin Hp Hsd. induction tokens as [|x tokens IH]; [destruct Hin|].
  destruct (String.eqb_spec x "---") as [Hx|Hx].
  - destruct Hin as [-> | Hin]; [congruence|].
    destruct (IH Hin) as (before & after & t' & -> & Hbefore & Ht').
    exists (x :: before), after, t'. repeat split; try apply Ht'.
    constructor; [left; exact Hx | exact Hbefore].
  - destruct (is_signed_decimal x) eqn:Hxsd.
    + destruct Hin as [-> | Hin]; [congruence|].
      destruct (IH Hin) as (before & after & t' & -> & Hbefore & Ht').
      exists (x :: before), after, t'. repeat split; try apply Ht'.
      constructor; [right; exact Hxsd | exact Hbefore].
    + exists [], tokens, x. repeat split; [constructor | exact Hx | exact Hxsd].
Qed.

Lemma malformed_line_error (line : string) :
  malformed_line is_signed_decimal line ->
  exists e, detail_line_error line e /\ (e = IndexError \/ exists msg, e = ValueError msg).
Proof.
  intros [field value Hsplit Hfield Hsearch
         | field value Hsplit Hfield Hlen
         | field value token Hsplit Hfield Hin Hp Hsd].
  - exists IndexError. split; [|left; reflexivity].
    eapply error_routes; eassumption.
  - eexists. split; [eapply error_row_length; eassumption|].
    right. unfold unpack_error. destruct (_ <? _)%nat; eexists; reflexivity.
  - destruct (Nat.eq_dec (length (Py.split (Py.strip value))) 5%nat) as [Hlen|Hlen].
    + destruct (first_rejected_token _ _ Hin Hp Hsd)
        as (before & after & t' & Htokens & Hbefore & Hp' & Hsd').
      eexists. split; [|right; eexists; reflexivity].
      rewrite Htokens in Hlen.
      eapply (error_row_token _ field value before after t'); eassumption.
    + eexists. split; [eapply error_row_length; eassumption|].
      right. unfold unpack_error. destruct (_ <? _)%nat; eexists; reflexivity.
Qed.

(** Two ways in which the detail parser differs from the words of the
    specification. The row [Import updates:  -5  3  19  0  0] has a token
    that is no run of digits, and the parser returns a record for it. The
    rows [Import updates:  50  3  19] and [Export withdraws:  0  0  0]
    raise the same exception, so the exception identifies neither the field
    nor the raw value. *)
Lemma malformed_line_claim_fails :
  ~ (forall (raw : list string) (line : string),
        In line raw -> malformed_line Py.is_decimal line ->
        exists e, _parse_peer_detail raw = Raise e)
  /\ ~ error_identifies_line.
Proof.
  split.
  - intros H.
    destruct (H [ "    Import updates:  -5  3  19  0  0" ]
                "    Import updates:  -5  3  19  0  0") as [e He].
    + left. reflexivity.
    + apply (malformed_row_token _ _ "Import updates" "  -5  3  19  0  0" "-5");
        try reflexivity.
      * left. reflexivity.
      * discriminate.
    + apply (f_equal is_Ok) in He. vm_compute in He. discriminate.
  - intros H.
    destruct (H "    Import updates:  50  3  19" "    Export withdraws:  0  0  0"
                "Import updates" "  50  3  19" "Export withdraws" "  0  0  0"
                (ValueError "need more than 3 values to unpack")) as [Hfield _].
    + reflexivity.
    + reflexivity.
    + apply (detail_line_error_raises ∅ _ (unpack_error 5 3)).
      apply (error_row_length _ "Import updates" "  50  3  19");
        [reflexivity | reflexivity | vm_compute; lia].
    + apply (detail_line_error_raises ∅ _ (unpack_error 5 3)).
      apply (error_row_length _ "Export withdraws" "  0  0  0");
        [reflexivity | reflexivity | vm_compute; lia].
    + discriminate Hfield.
Qed.

(** C8. In a detail block, a line of field [field] and value [value] that
    is malformed raises the same exception whatever the parser has
    collected: [IndexError] for a routes line in whose value the pattern of
    the two counts does not occur; the [ValueError] of the unpacking, which
    gives the number of tokens, for a route-churn row that has not five
    tokens; and for a row of five tokens the [ValueError] of [int], whose
    message quotes the first token that is neither the placeholder nor an
    integer literal, with or without a sign. The exception ends the parse of
    the block and of the response: no record and no list of peers is
    returned. *)
Theorem malformed_line_aborts (raw : list string) (line field value : string) :
  In line raw ->
  Py.split_once ":" (Py.strip line) = [field; value] ->
  malformed_line is_signed_decimal line ->
  (exists e,
      (forall result, parse_detail_line result line = Raise e)
      /\ (Py.lower field = "routes" -> e = IndexError)
      /\ (in_list (Py.lower field) route_change_fields = true ->
          length (Py.split (Py.strip value)) <> 5%nat ->
          e = unpack_error 5 (length (Py.split (Py.strip value))))
      /\ (in_list (Py.lower field) route_change_fields = true ->
          length (Py.split (Py.strip value)) = 5%nat ->
          exists (before : list string) (t : string) (after : list string),
            Py.split (Py.strip value) = (before ++ t :: after)%list
            /\ Forall (fun t' => t' = "---" \/ is_signed_decimal t' = true) before
            /\ t <> "---"
            /\ is_signed_decimal t = false
            /\ e = ValueError ("invalid literal for int() with base 10: "
                                 ++ Py.repr t)))
  /\ (exists e', _parse_peer_detail raw = Raise e')
  /\ (forall (now : datetime) (peers : list dict) (summary : dict)
        (first detail_body : string) (lineiterator rest : list string),
         dict_truthy summary = true ->
         _extract_field_number (Py.strip first) = Ok (Some 1006, detail_body) ->
         read_detail_block detail_body [] lineiterator = Ok (raw, rest) ->
         exists e',
           parse_peer_lines now true (first :: lineiterator) peers (Some summary)
           = Raise e').
Proof.
  intros Hin Hsplit Hbad.
  destruct (malformed_line_error line Hbad) as (e & Herr & _).
  assert (Hline : forall result, parse_detail_line result line = Raise e).
  { intros result. apply detail_line_error_raises, Herr. }
  assert (Hraw : exists e', _parse_peer_detail raw = Raise e').
  { apply (parse_detail_lines_raises raw line e Hin Hline). }
  assert (Hroutes : in_list "routes" route_change_fields = false) by reflexivity.
  split; [|split; [exact Hraw|]].
  - exists e. split; [exact Hline|]. clear Hline Hraw Hbad.
    destruct Herr as [f v Hs Hf Hsearch
                     | f v Hs Hf Hlen
                     | f v before after t Hs Hf Htokens Hlen Hbefore Hp Hsd];
      rewrite Hsplit in Hs; injection Hs as <- <-.
    + split; [reflexivity|].
      split; intros Hrow; rewrite Hf, Hroutes in Hrow; discriminate.
    + split; [intros Hr; rewrite Hr, Hroutes in Hf; discriminate|].
      split; [reflexivity|]. intros _ Hfive. contradiction.
    + split; [intros Hr; rewrite Hr, Hroutes in Hf; discriminate|].
      split; [intros _ Hnot; rewrite Htokens in Hnot; contradiction|].
      intros _ _. exists before, t, after. repeat split; assumption.
  - intros now peers summary first body it rest Htruthy Hx Hread.
    destruct Hraw as [e' He']. exists e'.
    rewrite parse_peer_lines_cons, Hx.
    cbn [in_ignored ignored_field_numbers existsb Z.eqb Pos.eqb orb].
    unfold summary_step. cbn [is_field Z.eqb Pos.eqb negb].
    rewrite Htruthy. cbn [negb]. unfold parse_detail_block.
    rewrite Hread, He'. reflexivity.
Qed.

(** The theorem on a block with a row that has a word among its tokens. *)
Lemma malformed_line_aborts_witness :
  (exists e,
      (forall result,
          parse_detail_line result "    Import updates:  50  3  n/a  0  0" = Raise e)
      /\ (Py.lower "Import updates" = "routes" -> e = IndexError)
      /\ (in_list (Py.lower "Import updates") route_change_fields = true ->
          length (Py.split (Py.strip "  50  3  n/a  0  0")) <> 5%nat ->
          e = unpack_error 5 (length (Py.split (Py.strip "  50  3  n/a  0  0"))))
      /\ (in_list (Py.lower "Import updates") route_change_fields = true ->
          length (Py.split (Py.strip "  50  3  n/a  0  0")) = 5%nat ->
          exists (before : list string) (t : string) (after : list string),
            Py.split (Py.strip "  50  3  n/a  0  0") = (before ++ t :: after)%list
            /\ Forall (fun t' => t' = "---" \/ is_signed_decimal t' = true) before
            /\ t <> "---"
            /\ is_signed_decimal t = false
            /\ e = ValueError ("invalid literal for int() with base 10: "
                                 ++ Py.repr t)))
  /\ (exists e', _parse_peer_detail
                   [ "  Preference:     100";
                     "    Import updates:  50  3  n/a  0  0" ]
                 = Raise e')
  /\ (forall (now : datetime) (peers : list dict) (summary : dict)
        (first detail_body : string) (lineiterator rest : list string),
         dict_truthy summary = true ->
         _extract_field_number (Py.strip first) = Ok (Some 1006, detail_body) ->
         read_detail_block detail_body [] lineiterator
         = Ok ([ "  Preference:     100";
                 "    Import updates:  50  3  n/a  0  0" ], rest) ->
         exists e',
           parse_peer_lines now true (first :: lineiterator) peers (Some summary)
           = Raise e').
Proof.
  apply (malformed_line_aborts
           [ "  Preference:     100"; "    Import updates:  50  3  n/a  0  0" ]
           "    Import updates:  50  3  n/a  0  0"
           "Import updates" "  50  3  n/a  0  0").
  - right. left. reflexivity.
  - reflexivity.
  - apply (malformed_row_token _ _ "Import updates" "  50  3  n/a  0  0" "n/a");
      try reflexivity.
    + right. right. left. reflexivity.
    + discriminate.
Defined.

Example routes_without_counts (result : dict) :
  parse_detail_line result "  Routes:         24 imported" = Raise IndexError.
Proof.
  apply detail_line_error_raises.
  apply (error_routes _ "Routes" "         24 imported"); vm_compute; reflexivity.
Qed.

Example row_of_three_tokens (result : dict) :
  parse_detail_line result "    Import updates:  50  3  19"
  = Raise (ValueError "need more than 3 values to unpack").
Proof.
  apply (detail_line_error_raises result _ (unpack_error 5 3)).
  apply (error_row_length _ "Import updates" "  50  3  19");
    [reflexivity | reflexivity | vm_compute; lia].
Qed.

Example row_with_word (result : dict) :
  parse_detail_line result "    Import updates:  50  3  n/a  0  0"
  = Raise (ValueError "invalid literal for int() with base 10: 'n/a'").
Proof.
  apply (detail_line_error_raises result _
           (ValueError ("invalid literal for int() with base 10: " ++ Py.repr "n/a"))).
  apply (error_row_token _ "Import updates" "  50  3  n/a  0  0" ["50"; "3"] ["0"; "0"]);
    try reflexivity.
  - repeat constructor; right; reflexivity.
  - discriminate.
Qed.

(** ** Exceptions of the parser *)

Lemma int_raises (s : string) (e : exn) :
  Py.int s = Raise e ->
  e = ValueError ("invalid literal for int() with base 10: " ++ Py.repr s).
Proof.
  unfold Py.int. destruct (Py.split_sign (Py.strip s)) as [neg body].
  destruct (Py.is_decimal body); [discriminate|]. intros [= <-]. reflexivity.
Qed.

Lemma int_parse_exn (s : string) (e : exn) : Py.int s = Raise e -> parse_exn e.
Proof. intros ->%int_raises. discriminate. Qed.

Lemma index_raises {A : Type} (l : list A) (i : nat) (e : exn) :
  Py.index l i = Raise e -> e = IndexError.
Proof. unfold Py.index. destruct (l !! i); [discriminate|]. intros [= <-]. reflexivity. Qed.

Lemma except_ValueError_raises {A : Type} (r h : outcome A) (e : exn) :
  except_ValueError r h = Raise e ->
  (r = Raise e /\ forall msg, e <> ValueError msg) \/ h = Raise e.
Proof.
  destruct r as [a|[]]; simpl; intros H; try discriminate;
    try (left; split; [exact H | injection H as <-; discriminate]).
  right. exact H.
Qed.

Lemma calculate_datetime_raises (now : datetime) (value : string) (e : exn) :
  _calculate_datetime now value = Raise e ->
  e = ValueError ("Can not parse datetime: [" ++ value ++ "]")
  \/ forall msg, e <> ValueError msg.
Proof.
  unfold _calculate_datetime.
  intros [[_ H]|[[_ H]|[[_ H]|H]%except_ValueError_raises]%except_ValueError_raises]
         %except_ValueError_raises; auto.
  injection H as <-. left. reflexivity.
Qed.

Lemma calculate_datetime_parse_exn (now : datetime) (value : string) (e : exn) :
  _calculate_datetime now value = Raise e -> parse_exn e.
Proof.
  intros [-> | H]%calculate_datetime_raises; [discriminate | apply H].
Qed.

Lemma unpack_error_parse_exn (expected n : nat) : parse_exn (unpack_error expected n).
Proof.
  unfold unpack_error. destruct (n <? expected)%nat; [|discriminate].
  destruct n as [|[|[|[|n]]]]; discriminate.
Qed.

Lemma extract_field_number_parse_exn (line : string) (e : exn) :
  _extract_field_number line = Raise e -> parse_exn e.
Proof.
  unfold _extract_field_number.
  destruct (Re.re_match field_number_re line) as [[digits cleaned]|]; [|discriminate].
  destruct (Py.int digits) eqn:Hint; [discriminate|].
  intros [= <-]. eapply int_parse_exn, Hint.
Qed.

Lemma parse_peer_summary_parse_exn (now : datetime) (line : string) (e : exn) :
  _parse_peer_summary now line = Raise e -> parse_exn e.
Proof.
  unfold _parse_peer_summary.
  destruct (match Py.index (Py.split line) 5 with Ok _ => _ | Raise _ => _ end)
    as [state up].
  destruct (Py.index (Py.split line) 4) as [value|e4] eqn:H4;
    [|intros [= <-]; apply index_raises in H4 as ->; discriminate].
  simpl. destruct (_calculate_datetime now value) as [lc|elc] eqn:Hlc;
    [|intros [= <-]; eapply calculate_datetime_parse_exn, Hlc].
  simpl. destruct (Py.index (Py.split line) 0) as [name|e0] eqn:H0;
    [|intros [= <-]; apply index_raises in H0 as ->; discriminate].
  simpl. destruct (Py.index (Py.split line) 1) as [protocol|e1] eqn:H1;
    [|intros [= <-]; apply index_raises in H1 as ->; discriminate].
  discriminate.
Qed.

Lemma parse_route_stats_parse_exn (result_dict : dict) (key_name value : string)
    (e : exn) :
  _parse_route_stats result_dict key_name value = Raise e -> parse_exn e.
Proof.
  unfold _parse_route_stats. destruct (String.eqb _ _); [discriminate|].
  destruct (Py.int value) eqn:Hint; [discriminate|].
  intros [= <-]. eapply int_parse_exn, Hint.
Qed.

Lemma bind_raises {A B : Type} (r : outcome A) (k : A -> outcome B) (e : exn) :
  bind r k = Raise e -> r = Raise e \/ exists a, r = Ok a /\ k a = Raise e.
Proof. destruct r as [a|e']; simpl; [right; eauto | intros [= <-]; left; reflexivity]. Qed.

Lemma parse_detail_line_parse_exn (result : dict) (line : string) (e : exn) :
  parse_detail_line result line = Raise e -> parse_exn e.
Proof.
  unfold parse_detail_line.
  destruct (Py.split_once ":" (Py.strip line)) as [|field [|value [|? ?]]];
    try (intros [= <-]; apply unpack_error_parse_exn).
  intros [H | (r1 & _ & [H | (r2 & _ & H)]%bind_raises)]%bind_raises;
    [| |discriminate].
  - destruct (String.eqb (Py.lower field) "routes"); [|discriminate].
    apply bind_raises in H as [H | (routes & _ & H)].
    { unfold findall_0 in H. destruct (Re.search _ _) as [[? ?]|]; [discriminate|].
      injection H as <-. discriminate. }
    apply bind_raises in H as [H | (imported & _ & H)]; [eapply int_parse_exn, H|].
    apply bind_raises in H as [H | (exported & _ & H)]; [eapply int_parse_exn, H|].
    discriminate.
  - destruct (in_list (Py.lower field) route_change_fields); [|discriminate].
    destruct (Py.split (Py.strip value)) as [|t0 [|t1 [|t2 [|t3 [|t4 [|? ?]]]]]];
      try (injection H as <-; apply unpack_error_parse_exn).
    repeat (apply bind_raises in H as [H | (? & _ & H)];
            [eapply parse_route_stats_parse_exn, H|]).
    eapply parse_route_stats_parse_exn, H.
Qed.

Lemma parse_peer_detail_parse_exn (raw : list string) (e : exn) :
  _parse_peer_detail raw = Raise e -> parse_exn e.
Proof.
  unfold _parse_peer_detail. generalize (∅ : dict).
  induction raw as [|line raw IH]; intros result; simpl; [discriminate|].
  intros [H | (r & _ & H)]%bind_raises.
  - eapply parse_detail_line_parse_exn, H.
  - eapply IH, H.
Qed.

Lemma read_detail_block_raises (lineiterator : list string) :
  forall (line : string) (raw : list string) (e : exn),
    read_detail_block line raw lineiterator = Raise e -> e = StopIteration.
Proof.
  induction lineiterator as [|next it IH]; intros line raw e; simpl;
    destruct (negb (String.eqb (Py.strip line) EmptyString)); try discriminate.
  - intros [= <-]. reflexivity.
  - apply IH.
Qed.

(** ** Records of a response *)

Lemma summary_record_truthy (name protocol : string) (last_change : datetime)
    (state : option string) :
  dict_truthy (summary_record name protocol last_change state) = true.
Proof.
  unfold dict_truthy. apply negb_true_iff, Nat.eqb_neq.
  intros Hsize%map_size_empty_iff.
  pose proof (summary_record_lookup name protocol last_change state) as [Hname _].
  simpl in Hname. rewrite Hsize in Hname. rewrite lookup_empty in Hname. discriminate.
Qed.

Lemma summary_record_BGP (name protocol : string) (last_change : datetime)
    (state : option string) :
  protocol_is_not_BGP (summary_record name protocol last_change state) = false ->
  protocol = "BGP".
Proof.
  unfold protocol_is_not_BGP.
  pose proof (summary_record_lookup name protocol last_change state) as (_ & -> & _).
  intros H%negb_false_iff. apply String.eqb_eq, H.
Qed.

Lemma summary_record_invariant (name protocol : string) (last_change : datetime)
    (state : option string) :
  protocol_is_not_BGP (summary_record name protocol last_change state) = false ->
  peer_invariant (summary_record name protocol last_change state).
Proof.
  intros ->%summary_record_BGP.
  pose proof (summary_record_lookup name "BGP" last_change state)
    as (Hn & Hp & Hl & _).
  repeat split; eauto.
Qed.

Lemma update_invariant (peer_detail summary : dict) :
  peer_invariant summary -> peer_invariant (update peer_detail summary).
Proof.
  intros ([name Hn] & Hp & [lc Hl]). unfold update, peer_invariant.
  rewrite (lookup_union_Some_l _ _ _ _ Hn), (lookup_union_Some_l _ _ _ _ Hp),
    (lookup_union_Some_l _ _ _ _ Hl).
  eauto.
Qed.

(** Whatever the response parser returns keeps the invariant, and whatever
    it raises is an exception of the parser. *)
Lemma parse_peer_lines_sound (now : datetime) (data_contains_detail : bool) (n : nat) :
  forall (lines : list string) (peers : list dict) (peer_summary : option dict),
    (length lines <= n)%nat ->
    Forall peer_invariant peers ->
    summary_invariant peer_summary ->
    match parse_peer_lines now data_contains_detail lines peers peer_summary with
    | Ok out => Forall peer_invariant out
    | Raise e => parse_exn e
    end.
Proof.
  induction n as [|n IH]; intros lines peers peer_summary Hlen Hpeers Hsummary.
  { destruct lines; [exact Hpeers | simpl in Hlen; lia]. }
  destruct lines as [|line it]; [exact Hpeers|].
  simpl in Hlen. assert (Hit : (length it <= n)%nat) by lia.
  rewrite parse_peer_lines_cons.
  destruct (_extract_field_number (Py.strip line)) as [[field_number body]|e] eqn:Hx;
    [|eapply extract_field_number_parse_exn, Hx].
  destruct (in_ignored field_number); [apply IH; assumption|].
  assert (Hstep :
    match summary_step now field_number body peer_summary with
    | Ok (s, _) => summary_invariant s
    | Raise e => parse_exn e
    end).
  { unfold summary_step. destruct (is_field field_number 1002); [|exact Hsummary].
    destruct (_parse_peer_summary now body) as [summary|e] eqn:Hs;
      [|eapply parse_peer_summary_parse_exn, Hs].
    simpl. destruct (protocol_is_not_BGP summary) eqn:Hbgp; [exact I|].
    apply parse_peer_summary_inv in Hs as (name & protocol & value & lc & _ & _ & _ & _ & ->).
    apply summary_record_invariant, Hbgp. }
  destruct (summary_step now field_number body peer_summary)
    as [[summary' []]|e]; [apply IH; assumption| |exact Hstep].
  destruct (negb data_contains_detail); [discriminate|].
  destruct (is_field field_number 1006); [|apply IH; assumption].
  destruct summary' as [summary|]; [|apply IH; assumption].
  destruct (negb (dict_truthy summary)); [apply IH; assumption|].
  unfold parse_detail_block.
  destruct (read_detail_block body [] it) as [[raw rest]|e] eqn:Hread;
    [|apply read_detail_block_raises in Hread as ->; discriminate].
  destruct (_parse_peer_detail raw) as [peer_detail|e] eqn:Hdetail;
    [|eapply parse_peer_detail_parse_exn, Hdetail].
  apply IH.
  - apply read_detail_block_length in Hread. lia.
  - apply Forall_app. split; [exact Hpeers|].
    constructor; [|constructor]. apply update_invariant, Hstep.
  - exact I.
Qed.


Lemma parse_peer_data_parse_exn (now : datetime) (data : string) (e : exn) :
  _parse_peer_data now data true = Raise e -> parse_exn e.
Proof.
  intros H. unfold _parse_peer_data in H.
  pose proof (parse_peer_lines_sound now true _ (Py.splitlines data) [] None
                (le_n _) (List.Forall_nil _) I) as Hs.
  rewrite H in Hs. exact Hs.
Qed.

(** ** Responses made of protocol blocks *)

Lemma skipped_step (now : datetime) (line : string) (it : list string)
    (peers : list dict) :
  skipped line = true ->
  parse_peer_lines now true (line :: it) peers None
  = parse_peer_lines now true it peers None.
Proof.
  unfold skipped. intros H. rewrite parse_peer_lines_cons.
  destruct (_extract_field_number (Py.strip line)) as [[field_number body]|e];
    [|discriminate].
  destruct (in_ignored field_number); [reflexivity|].
  unfold summary_step. apply negb_true_iff in H. rewrite H. cbn [negb].
  destruct (is_field field_number 1006); reflexivity.
Qed.

Lemma skipped_run (now : datetime) (lines it : list string) (peers : list dict) :
  Forall (fun l => skipped l = true) lines ->
  parse_peer_lines now true (lines ++ it) peers None
  = parse_peer_lines now true it peers None.
Proof.
  induction 1 as [|line lines Hline _ IH]; [reflexivity|].
  rewrite <- app_comm_cons, skipped_step by exact Hline. exact IH.
Qed.

Lemma block_run (now : datetime) (b : protocol_block) (out : option dict)
    (it : list string) (peers : list dict) :
  block_peer now b out ->
  parse_peer_lines now true (block_lines b ++ it) peers None
  = parse_peer_lines now true it (peers ++ from_option (fun p => [p]) [] out)%list None.
Proof.
  intros [sbody dbody summary peer_detail Hsx Hs Hbgp Hdx Hd Hmore Hblank Hdetail
         | sbody summary Hsx Hs Hbgp Hskip];
    unfold block_lines; rewrite <- app_comm_cons, parse_peer_lines_cons, Hsx;
    cbn [in_ignored ignored_field_numbers existsb Z.eqb Pos.eqb orb];
    unfold summary_step; cbn [is_field Z.eqb Pos.eqb]; rewrite Hs; cbn [bind];
    rewrite Hbgp.
  - cbn [negb is_field Z.eqb Pos.eqb].
    rewrite <- app_comm_cons, parse_peer_lines_cons, Hdx.
    cbn [in_ignored ignored_field_numbers existsb Z.eqb Pos.eqb orb].
    unfold summary_step. cbn [is_field Z.eqb Pos.eqb negb].
    apply parse_peer_summary_inv in Hs as (name & protocol & value & lc & _ & _ & _ & _ & ->).
    rewrite summary_record_truthy. cbn [negb].
    unfold parse_detail_block.
    rewrite <- app_assoc. cbn [app].
    rewrite (read_detail_block_run _ _ _ [] it Hd Hmore Hblank).
    cbn [app]. rewrite Hdetail. reflexivity.
  - rewrite (skipped_run now _ it peers Hskip).
    cbn [from_option]. rewrite app_nil_r. reflexivity.
Qed.

Lemma blocks_run (now : datetime) (blocks : list protocol_block)
    (outs : list (option dict)) :
  Forall2 (block_peer now) blocks outs ->
  forall (it : list string) (peers : list dict),
    parse_peer_lines now true (flat_map block_lines blocks ++ it) peers None
    = parse_peer_lines now true it (peers ++ block_peers outs)%list None.
Proof.
  induction 1 as [|b out blocks outs Hb _ IH]; intros it peers.
  - cbn. rewrite app_nil_r. reflexivity.
  - cbn [flat_map]. rewrite <- app_assoc, (block_run now b out _ peers Hb), IH.
    rewrite <- app_assoc. f_equal. f_equal. destruct out; reflexivity.
Qed.

(** The response parser on a response made of blocks. *)
Lemma parse_peer_data_blocks (now : datetime) (data : string)
    (before after : list string) (blocks : list protocol_block)
    (outs : list (option dict)) :
  Py.splitlines data = (before ++ flat_map block_lines blocks ++ after)%list ->
  Forall (fun l => skipped l = true) before ->
  Forall (fun l => skipped l = true) after ->
  Forall2 (block_peer now) blocks outs ->
  _parse_peer_data now data true = Ok (block_peers outs).
Proof.
  intros Hlines Hbefore Hafter Hblocks.
  unfold _parse_peer_data. rewrite Hlines.
  rewrite (skipped_run now before _ [] Hbefore).
  rewrite (blocks_run now blocks outs Hblocks after []).
  rewrite <- (app_nil_r after), (skipped_run now after [] _ Hafter).
  reflexivity.
Qed.

(** ** The fixture *)

Lemma fixture_device : block_peer Fixture.now Fixture.device None.
Proof.
  eapply (block_other _ _ "device1  Device   master   up     14:20"
            (summary_record "device1" "Device" (mk_datetime 2011 12 1 14 20 0 0) None)).
  - vm_compute. reflexivity.
  - apply (parse_peer_summary_record Fixture.now
             "device1  Device   master   up     14:20" "device1" "Device" "14:20"
             (mk_datetime 2011 12 1 14 20 0 0) None);
      vm_compute; reflexivity.
  - vm_compute. reflexivity.
  - repeat constructor.
Qed.

Lemma fixture_ps1 :
  block_peer Fixture.now Fixture.ps1
    (Some (update Fixture.ps1_detail Fixture.ps1_summary)).
Proof.
  eapply (block_bgp _ _ "PS1      BGP      T_PS1    start  Jun13       Passive"
            "  Description:    Peering AS8954 - InTouch").
  - vm_compute. reflexivity.
  - apply (parse_peer_summary_record Fixture.now
             "PS1      BGP      T_PS1    start  Jun13       Passive" "PS1" "BGP" "Jun13"
             (mk_datetime 2011 6 13 0 0 0 0) (Some "Passive"));
      vm_compute; reflexivity.
  - vm_compute. reflexivity.
  - vm_compute. reflexivity.
  - vm_compute. discriminate.
  - repeat constructor; vm_compute; discriminate.
  - reflexivity.
  - reflexivity.
Qed.

Lemma fixture_one_protocol :
  _parse_peer_data Fixture.now Fixture.one_protocol true
  = Ok [update Fixture.ps1_detail Fixture.ps1_summary].
Proof.
  apply (parse_peer_data_blocks Fixture.now Fixture.one_protocol
           Fixture.banner Fixture.footer [Fixture.ps1]
           [Some (update Fixture.ps1_detail Fixture.ps1_summary)]).
  - vm_compute. reflexivity.
  - repeat constructor.
  - repeat constructor.
  - constructor; [exact fixture_ps1 | constructor].
Qed.

(** ** The full-status query *)









(** ** The single-peer query *)

(** The query for the peer ghost, on a reply without protocols, raises the
    [ValueError] of [get_peer_status]; the response parser raises a
    [ValueError] too, on the reply whose timestamp is the word never, so the
    error is of the class of a parse error. *)
Lemma peer_count_error_is_ValueError :
  get_peer_status Fixture.now (fun _ => Ok reply_no_peer) (Some "ghost")
  = Raise peer_count_error
  /\ ~ distinct_from_parse_errors peer_count_error.
Proof.
  split; [vm_compute; reflexivity|].
  intros H.
  apply (H Fixture.now reply_bad_timestamp
           (ValueError "Can not parse datetime: [never]"));
    vm_compute; reflexivity.
Qed.

(** C7. With a name, [get_peer_status] returns the one record the parser
    found, as a record. When the parser found no record or several, it raises
    its own [ValueError], whose message no exception of the parser carries;
    an exception of the parser propagates. *)
Theorem get_peer_status_one (now : datetime) (_send_query : string -> outcome string)
    (peer_name data : string) :
  peer_name <> EmptyString ->
  _send_query ("show protocols all " ++ dquote ++ _clean_input peer_name ++ dquote)
  = Ok data ->
  match _parse_peer_data now data true with
  | Ok [peer] => get_peer_status now _send_query (Some peer_name) = Ok (OnePeer peer)
  | Ok _ => get_peer_status now _send_query (Some peer_name) = Raise peer_count_error
  | Raise e =>
      get_peer_status now _send_query (Some peer_name) = Raise e
      /\ e <> peer_count_error
  end.
Proof.
  intros Hname Hsend. unfold get_peer_status.
  destruct peer_name as [|c name]; [congruence|].
  cbn [name_given default negb]. unfold id. rewrite Hsend. cbn [bind].
  destruct (_parse_peer_data now data true) as [peers|e] eqn:Hparse.
  - destruct peers as [|peer [|peer' peers]]; reflexivity.
  - split; [reflexivity|]. eapply parse_peer_data_parse_exn, Hparse.
Qed.

(** The theorem on the fixture: the query for PS1 returns its record. *)
Lemma get_peer_status_one_witness :
  get_peer_status Fixture.now Fixture.transport (Some "PS1")
  = Ok (OnePeer (update Fixture.ps1_detail Fixture.ps1_summary)).
Proof.
  pose proof (get_peer_status_one Fixture.now Fixture.transport "PS1"
                Fixture.one_protocol) as H.
  rewrite fixture_one_protocol in H.
  apply H; [discriminate | vm_compute; reflexivity].
Defined.

(** * Further properties *)

(** ** Matchers *)

Lemma head_In {A : Type} (l : list A) (x : A) : head l = Some x -> In x l.
Proof. destruct l; [discriminate|]. intros [= ->]. left. reflexivity. Qed.

Lemma in_class (q : ascii -> bool) (s a r : string) :
  In (a, r) (Re.class q s) ->
  exists c, a = String c EmptyString /\ s = String c r /\ q c = true.
Proof.
  unfold Re.class. destruct s as [|c s]; [intros []|].
  destruct (q c) eqn:Hq; [|intros []].
  intros [[= <- <-]|[]]. exists c. auto.
Qed.

Lemma in_re_seq {A B C : Type} (f : A -> B -> C) (m1 : Re.matcher A) (m2 : Re.matcher B)
    (s : string) (x : C) (r' : string) :
  In (x, r') (Re.seq f m1 m2 s) ->
  exists a r b, In (a, r) (m1 s) /\ In (b, r') (m2 r) /\ x = f a b.
Proof.
  unfold Re.seq. intros H. apply in_flat_map in H as [[a r] [Ha H]].
  apply in_map_iff in H as [[b r''] [[= <- <-] Hb]]. eauto 7.
Qed.

Lemma in_plus (p : ascii -> bool) (s a r : string) :
  In (a, r) (Re.plus p s) ->
  s = a ++ r /\ Py.forallb p a = true /\ a <> EmptyString.
Proof.
  revert a r. induction s as [|c s IH]; intros a r; simpl; [intros []|].
  destruct (p c) eqn:Hp; [|intros []].
  intros [H | [[= <- <-]|[]]]%in_app_or.
  - apply in_map_iff in H as [[a' r'] [[= <- <-] H]].
    apply IH in H as (-> & Ha & _). simpl. rewrite Hp, Ha. repeat split. discriminate.
  - simpl. rewrite Hp. repeat split. discriminate.
Qed.

Lemma plus_greedy (p : ascii -> bool) (d : string) (c : ascii) (r : string) :
  Py.forallb p d = true -> d <> EmptyString -> p c = false ->
  exists tl, Re.plus p (d ++ String c r) = (d, String c r) :: tl.
Proof.
  induction d as [|x d IH]; [congruence|]. simpl.
  intros [Hx Hd]%andb_prop _ Hc. rewrite Hx.
  destruct d as [|y d].
  - simpl. rewrite Hc. eexists. reflexivity.
  - destruct (IH Hd ltac:(discriminate) Hc) as [tl ->]. eexists. reflexivity.
Qed.

Lemma literal_prefix (l r : string) : Re.literal l (l ++ r) = [(l, r)].
Proof.
  induction l as [|c l IH]; [reflexivity|].
  change (String c l ++ r) with (String c (l ++ r)).
  cbn [Re.literal]. unfold Re.seq at 1. unfold Re.char, Re.class.
  rewrite Ascii.eqb_refl. cbn [flat_map]. rewrite IH. reflexivity.
Qed.

Lemma seq_first {A B C : Type} (f : A -> B -> C) (m1 : Re.matcher A) (m2 : Re.matcher B)
    (s : string) (a : A) (r : string) (tl1 : list (A * string))
    (b : B) (r' : string) (tl2 : list (B * string)) :
  m1 s = (a, r) :: tl1 -> m2 r = (b, r') :: tl2 ->
  exists tl, Re.seq f m1 m2 s = (f a b, r') :: tl.
Proof.
  intros H1 H2. unfold Re.seq. rewrite H1. simpl. rewrite H2. simpl.
  eexists. reflexivity.
Qed.

(** ** The field tokenizer *)

(** X1. The tokenizer never raises. It returns the line as it is and no
    code, or the line is a run of digits, a blank or a dash, and a rest, and
    it returns the value of the digits in base 10 and the rest. *)
Theorem extract_field_number_total (line : string) :
  exists (field_number : option Z) (cleaned_line : string),
    _extract_field_number line = Ok (field_number, cleaned_line)
    /\ ((field_number = None /\ cleaned_line = line)
        \/ exists (digits : string) (sep : ascii),
            line = digits ++ String sep cleaned_line
            /\ Py.is_decimal digits = true
            /\ (sep = " "%char \/ sep = "-"%char)
            /\ field_number = Some (Py.digits_val 0 digits)).
Proof.
  unfold _extract_field_number.
  destruct (Re.re_match field_number_re line) as [[digits cleaned]|] eqn:Hm.
  - apply head_In, in_re_seq in Hm as (a & r & b & Ha & Hb & ->).
    apply in_plus in Ha as (-> & Hdig & Hne).
    apply in_class in Hb as (sep & -> & -> & Hsep).
    assert (Hdec : Py.is_decimal a = true) by (destruct a; [congruence | exact Hdig]).
    rewrite (int_decimal _ Hdec). simpl.
    exists (Some (Py.digits_val 0 a)), cleaned. split; [reflexivity|].
    right. exists a, sep. repeat split; try assumption.
    apply orb_prop in Hsep as [H|H]; apply Ascii.eqb_eq in H; auto.
  - exists None, line. split; [reflexivity|]. left. split; reflexivity.
Qed.

(** X2. A line that starts with a run of digits followed by a blank or a
    dash gives the value of the digits in base 10, leading zeros included,
    and what follows the separator, untouched. *)
Theorem extract_field_number_prefix (digits : string) (sep : ascii) (rest : string) :
  Py.is_decimal digits = true ->
  sep = " "%char \/ sep = "-"%char ->
  _extract_field_number (digits ++ String sep rest)
  = Ok (Some (Py.digits_val 0 digits), rest).
Proof.
  intros Hdec Hsep. unfold _extract_field_number, Re.re_match, field_number_re.
  assert (Hdig : Py.forallb Py.is_digit digits = true /\ digits <> EmptyString).
  { destruct digits; [discriminate|]. split; [exact Hdec | discriminate]. }
  destruct Hdig as [Hdig Hne].
  assert (Hnd : Py.is_digit sep = false) by (destruct Hsep as [-> | ->]; reflexivity).
  destruct (plus_greedy Py.is_digit digits sep rest Hdig Hne Hnd) as [tl1 H1].
  assert (H2 : Re.class (fun c => Ascii.eqb c " " || Ascii.eqb c "-") (String sep rest)
               = [(String sep EmptyString, rest)]).
  { destruct Hsep as [-> | ->]; reflexivity. }
  destruct (seq_first (fun d (_ : string) => d) _ _ _ _ _ _ _ _ _ H1 H2) as [tl ->].
  simpl. rewrite (int_decimal _ Hdec). reflexivity.
Qed.

Lemma extract_field_number_prefix_witness :
  _extract_field_number ("0001" ++ String " " "BIRD 1.3.0 ready.")
  = Ok (Some (Py.digits_val 0 "0001"), "BIRD 1.3.0 ready.").
Proof.
  apply (extract_field_number_prefix "0001" " " "BIRD 1.3.0 ready.");
    [reflexivity | left; reflexivity].
Defined.

(** ** Lines of a detail block *)

Lemma search_at_start {A : Type} (m : Re.matcher A) (s : string) (x : A * string) :
  Re.re_match m s = Some x -> Re.search m s = Some x.
Proof. intros H. destruct s; simpl; rewrite H; reflexivity. Qed.

Lemma routes_field_re_counts (imported exported tail : string) :
  Py.is_decimal imported = true ->
  Py.is_decimal exported = true ->
  findall_0 routes_field_re
    (imported ++ " imported, " ++ exported ++ " exported" ++ tail)
  = Ok (imported, exported).
Proof.
  intros Hi He.
  assert (Hdig : forall d, Py.is_decimal d = true ->
                   Py.forallb Py.is_digit d = true /\ d <> EmptyString).
  { intros [|c d] H; [discriminate|]. split; [exact H | discriminate]. }
  destruct (Hdig _ Hi) as [Hi1 Hi2]. destruct (Hdig _ He) as [He1 He2].
  destruct (plus_greedy Py.is_digit exported " " ("exported" ++ tail) He1 He2 eq_refl)
    as [tl3 H3].
  destruct (seq_first (fun (e : string) (_ : string) => e) (Re.plus Py.is_digit)
              (Re.literal " exported") _ _ _ _ _ _ []
              H3 (literal_prefix " exported" tail)) as [tl4 H4].
  destruct (seq_first (fun (_ : string) (e : string) => e) (Re.literal " imported, ")
              _ _ _ _ [] _ _ _
              (literal_prefix " imported, " (exported ++ " exported" ++ tail)) H4)
    as [tl5 H5].
  destruct (plus_greedy Py.is_digit imported " "
              ("imported, " ++ exported ++ " exported" ++ tail) Hi1 Hi2 eq_refl)
    as [tl1 H1].
  destruct (seq_first (fun i e : string => (i, e)) (Re.plus Py.is_digit) _ _ _ _ _ _ _ _
              H1 H5) as [tl H].
  unfold findall_0.
  rewrite (search_at_start routes_field_re _ ((imported, exported), tail)).
  - reflexivity.
  - exact (f_equal head H).
Qed.

(** X3. A routes line whose value starts with two counts, as in
    [24 imported, 23 exported, 0 preferred], stores the two counts under
    [routes_imported] and [routes_exported]; what follows the second count
    adds nothing to the record. *)
Theorem routes_line_counts (result : dict) (line field value : string)
    (imported exported tail : string) :
  Py.split_once ":" (Py.strip line) = [field; value] ->
  Py.lower field = "routes" ->
  Py.strip value = imported ++ " imported, " ++ exported ++ " exported" ++ tail ->
  Py.is_decimal imported = true ->
  Py.is_decimal exported = true ->
  parse_detail_line result line
  = Ok (<["routes_exported" := VInt (Py.digits_val 0 exported)]>
          (<["routes_imported" := VInt (Py.digits_val 0 imported)]> result)).
Proof.
  intros Hsplit Hfield Hvalue Hi He. unfold parse_detail_line.
  rewrite Hsplit, Hfield, Hvalue, (routes_field_re_counts _ _ _ Hi He).
  cbn [String.eqb Ascii.eqb Bool.eqb bind fst snd].
  rewrite (int_decimal _ Hi), (int_decimal _ He). reflexivity.
Qed.

Lemma routes_line_counts_witness :
  parse_detail_line ∅ "  Routes:         24 imported, 23 exported, 0 preferred"
  = Ok (<["routes_exported" := VInt (Py.digits_val 0 "23")]>
          (<["routes_imported" := VInt (Py.digits_val 0 "24")]> ∅)).
Proof.
  apply (routes_line_counts ∅ _ "Routes"
           "         24 imported, 23 exported, 0 preferred" "24" "23" ", 0 preferred");
    reflexivity.
Defined.

Lemma split_once_absent (sep : ascii) (s : string) :
  Py.contains sep s = false -> Py.split_once sep s = [s].
Proof.
  induction s as [|c s IH]; [reflexivity|]. simpl.
  intros [Hc Hs]%orb_false_iff. rewrite Ascii.eqb_sym, Hc, (IH Hs). reflexivity.
Qed.

(** X4. A line of a detail block without a colon cannot be split into
    field and value: the detail parser raises [ValueError], and so does the
    parse of every block that has such a line. *)
Theorem detail_line_without_colon (raw : list string) (line : string) :
  In line raw ->
  Py.contains ":" (Py.strip line) = false ->
  (forall result,
      parse_detail_line result line
      = Raise (ValueError "need more than 1 value to unpack"))
  /\ exists e, _parse_peer_detail raw = Raise e.
Proof.
  intros Hin Hcolon.
  assert (Hline : forall result,
             parse_detail_line result line
             = Raise (ValueError "need more than 1 value to unpack")).
  { intros result. unfold parse_detail_line.
    rewrite (split_once_absent _ _ Hcolon). reflexivity. }
  split; [exact Hline|].
  apply (parse_detail_lines_raises raw line _ Hin Hline).
Qed.

Lemma detail_line_without_colon_witness :
  (forall result,
      parse_detail_line result "  Route change stats"
      = Raise (ValueError "need more than 1 value to unpack"))
  /\ exists e,
      _parse_peer_detail [ "  Preference:     100"; "  Route change stats" ] = Raise e.
Proof.
  apply (detail_line_without_colon
           [ "  Preference:     100"; "  Route change stats" ] "  Route change stats");
    [right; left; reflexivity | reflexivity].
Defined.

(** ** The timestamp normalizer on every token of a shape *)

Lemma datetime_eqb_eq (a b : datetime) : datetime_eqb a b = true -> a = b.
Proof.
  destruct a, b. unfold datetime_eqb. simpl. intros H.
  repeat (apply andb_prop in H as [H ?]).
  repeat match goal with E : (_ =? _) = true |- _ => apply Z.eqb_eq in E end.
  subst. reflexivity.
Qed.

Lemma in_Z_range (lo : Z) (n : nat) (x : Z) :
  lo <= x < lo + Z.of_nat n -> In x (Z_range lo n).
Proof.
  intros H. unfold Z_range. apply in_map_iff. exists (Z.to_nat (x - lo)).
  split; [lia|]. apply List.in_seq. lia.
Qed.

Lemma forallb_Z_range (p : Z -> bool) (lo : Z) (n : nat) (x : Z) :
  List.forallb p (Z_range lo n) = true -> lo <= x < lo + Z.of_nat n -> p x = true.
Proof.
  intros H Hx. rewrite List.forallb_forall in H. apply H, in_Z_range, Hx.
Qed.

Lemma clock_tokens_checked :
  List.forallb (fun h => List.forallb (check_clock_token h) (Z_range 0 60)) (Z_range 0 24)
  = true.
Proof. vm_compute. reflexivity. Qed.

Lemma strptime_clock_token (h m : Z) :
  0 <= h <= 23 -> 0 <= m <= 59 ->
  strptime_HM (clock_token h m) = Ok (mk_datetime 1900 1 1 h m 0 0).
Proof.
  intros Hh Hm.
  pose proof (forallb_Z_range _ 0 24 h clock_tokens_checked ltac:(lia)) as H.
  apply (fun H => forallb_Z_range _ 0 60 m H ltac:(lia)) in H.
  unfold check_clock_token in H.
  destruct (strptime_HM (clock_token h m)) as [d|e]; [|discriminate].
  apply datetime_eqb_eq in H as ->. reflexivity.
Qed.

Lemma month_tokens_checked :
  List.forallb (fun mon => List.forallb (check_month_token mon) (Z_range 1 31))
    (Z_range 1 12)
  = true.
Proof. vm_compute. reflexivity. Qed.

Lemma days_in_month_bounds (y mon : Z) :
  28 <= Calendar.days_in_month y mon <= 31
  /\ Calendar.days_in_month y mon <= Calendar.days_in_month 1996 mon.
Proof.
  unfold Calendar.days_in_month.
  destruct (mon =? 2); [destruct (Calendar.is_leap y); vm_compute; intuition discriminate|].
  destruct ((mon =? 4) || (mon =? 6) || (mon =? 9) || (mon =? 11)); lia.
Qed.

Lemma strptime_month_token (mon d : Z) :
  1 <= mon <= 12 -> 1 <= d <= Calendar.days_in_month 1996 mon ->
  is_ValueError (strptime_HM (month_token mon d)) = true
  /\ strptime_YbD ("1996 " ++ month_token mon d) = Ok (mk_datetime 1996 mon d 0 0 0 0).
Proof.
  intros Hmon Hd.
  pose proof (days_in_month_bounds 1996 mon) as [Hb _].
  pose proof (forallb_Z_range _ 1 12 mon month_tokens_checked ltac:(lia)) as H.
  apply (fun H => forallb_Z_range _ 1 31 d H ltac:(lia)) in H.
  unfold check_month_token in H.
  destruct (Z.leb_spec d (Calendar.days_in_month 1996 mon)); [|lia].
  apply andb_prop in H as [H1 H2]. split; [exact H1|].
  destruct (strptime_YbD ("1996 " ++ month_token mon d)) as [t|e]; [|discriminate].
  apply datetime_eqb_eq in H2 as ->. reflexivity.
Qed.

Lemma datetime_new_valid (now : datetime) (h m : Z) :
  valid_date now -> 0 <= h <= 23 -> 0 <= m <= 59 ->
  datetime_new (year now) (month now) (day now) h m
  = Ok (mk_datetime (year now) (month now) (day now) h m 0 0).
Proof.
  intros (Hy & Hmon & Hd) Hh Hm.
  pose proof (days_in_month_bounds (year now) (month now)) as [Hb _].
  unfold datetime_new, fits_c_int. cbn [List.forallb].
  repeat match goal with
    | |- context [?a <=? ?b] =>
        let E := fresh in
        assert (E : (a <=? b) = true) by (apply Z.leb_le; lia); rewrite E; clear E
    end.
  reflexivity.
Qed.

Lemma except_ValueError_keeps {A : Type} (r h : outcome A) :
  is_ValueError r = false -> except_ValueError r h = r.
Proof. destruct r as [a|[]]; simpl; congruence. Qed.

Lemma except_ValueError_handles {A : Type} (r h : outcome A) :
  is_ValueError r = true -> except_ValueError r h = h.
Proof. destruct r as [a|[]]; simpl; congruence. Qed.

Lemma datetime_sub_no_ValueError (dt : datetime) (td : timedelta) :
  is_ValueError (datetime_sub dt td) = false.
Proof.
  unfold datetime_sub. destruct (_ && _); [|reflexivity].
  destruct (Calendar.ord2ymd _) as [[y m] d]. reflexivity.
Qed.

(** X5. For a clock token [HH:MM] and a calendar date of now, the
    normalizer answers that time on now's date, unless now's hour is at most
    the hour of the token and now's minute is below the minute of the token:
    then it answers that time one day before. *)
Theorem calculate_datetime_clock (now : datetime) (h m : Z) :
  valid_date now -> 0 <= h <= 23 -> 0 <= m <= 59 ->
  _calculate_datetime now (clock_token h m)
  = if (hour now <=? h) && (minute now <? m)
    then datetime_sub (mk_datetime (year now) (month now) (day now) h m 0 0)
           (mk_timedelta 1 0 0)
    else Ok (mk_datetime (year now) (month now) (day now) h m 0 0).
Proof.
  intros Hnow Hh Hm. unfold _calculate_datetime.
  rewrite (strptime_clock_token h m Hh Hm). cbn [bind hour minute].
  rewrite (datetime_new_valid now h m Hnow Hh Hm). cbn [bind].
  destruct ((hour now <=? h) && (minute now <? m)).
  - change (timedelta_new "days" 1) with (Ok (mk_timedelta 1 0 0)). cbn [bind].
    apply except_ValueError_keeps, datetime_sub_no_ValueError.
  - reflexivity.
Qed.

Lemma calculate_datetime_clock_witness :
  _calculate_datetime (mk_datetime 2011 6 13 10 55 30 0) (clock_token 9 5)
  = Ok (mk_datetime 2011 6 13 9 5 0 0).
Proof.
  apply (calculate_datetime_clock (mk_datetime 2011 6 13 10 55 30 0) 9 5);
    [vm_compute; intuition discriminate | lia | lia].
Defined.

(** X6. For a month-day token such as [Jun13] that names a day of now's
    year, the normalizer answers that day of now's year at midnight, unless
    now's month is at most the month of the token and now's day is below the
    day of the token: then it raises [TypeError]. *)
Theorem calculate_datetime_month_day (now : datetime) (mon d : Z) :
  valid_date now ->
  1 <= mon <= 12 ->
  1 <= d <= Calendar.days_in_month (year now) mon ->
  _calculate_datetime now (month_token mon d)
  = if (month now <=? mon) && (day now <? d)
    then Raise TypeError
    else Ok (mk_datetime (year now) mon d 0 0 0 0).
Proof.
  intros Hnow Hmon Hd.
  pose proof (days_in_month_bounds (year now) mon) as [Hb Hle].
  destruct (strptime_month_token mon d Hmon ltac:(lia)) as [H1 H2].
  unfold _calculate_datetime.
  assert (Hcase1 : forall k : datetime -> outcome datetime,
             is_ValueError (bind (strptime_HM (month_token mon d)) k) = true).
  { intros k. destruct (strptime_HM (month_token mon d)) as [t|[]]; try discriminate.
    reflexivity. }
  rewrite (except_ValueError_handles _ _ (Hcase1 _)).
  rewrite H2. cbn [bind month day].
  assert (Hdate : datetime_new (year now) mon d 0 0
                  = Ok (mk_datetime (year now) mon d 0 0 0 0)).
  { apply (datetime_new_valid (mk_datetime (year now) mon d 0 0 0 0) 0 0);
      [|lia|lia].
    destruct Hnow as (Hy & _). repeat split; simpl; lia. }
  rewrite Hdate. cbn [bind].
  destruct ((month now <=? mon) && (day now <? d)); reflexivity.
Qed.

Lemma calculate_datetime_month_day_witness :
  _calculate_datetime (mk_datetime 2011 12 1 20 0 0 0) (month_token 6 13)
  = Ok (mk_datetime 2011 6 13 0 0 0 0).
Proof.
  apply (calculate_datetime_month_day (mk_datetime 2011 12 1 20 0 0 0) 6 13);
    vm_compute; intuition discriminate.
Defined.

(** ** Tokens that are years, and tokens that are nothing *)

Lemma digits_tail (c : ascii) (s : string) :
  Py.forallb Py.is_digit (String c s) = true ->
  Py.is_digit c = true /\ Py.forallb Py.is_digit s = true.
Proof. simpl. apply andb_prop. Qed.

Lemma in_alt {A : Type} (ms : list (Re.matcher A)) (s : string) (x : A * string) :
  In x (Re.alt ms s) -> exists m, In m ms /\ In x (m s).
Proof. unfold Re.alt. intros H. apply in_flat_map in H. exact H. Qed.

Lemma in_two_classes (p q : ascii -> bool) (s a r : string) :
  In (a, r) (Re.seq two_digits (Re.class p) (Re.class q) s) ->
  exists c1 c2, s = String c1 (String c2 r).
Proof.
  intros (a1 & r1 & a2 & H1 & H2 & _)%in_re_seq.
  apply in_class in H1 as (c1 & _ & -> & _).
  apply in_class in H2 as (c2 & _ & -> & _). eauto.
Qed.

Lemma re_H_rest_digits (s a r : string) :
  Py.forallb Py.is_digit s = true -> In (a, r) (re_H s) ->
  Py.forallb Py.is_digit r = true.
Proof.
  intros Hs (m & Hm & Hin)%in_alt. unfold re_H in Hm. simpl in Hm.
  destruct Hm as [<- | [<- | [<- | []]]].
  - apply in_two_classes in Hin as (c1 & c2 & ->).
    apply digits_tail in Hs as [_ Hs]. apply digits_tail in Hs as [_ Hs]. exact Hs.
  - apply in_two_classes in Hin as (c1 & c2 & ->).
    apply digits_tail in Hs as [_ Hs]. apply digits_tail in Hs as [_ Hs]. exact Hs.
  - apply in_class in Hin as (c & _ & -> & _).
    apply digits_tail in Hs as [_ Hs]. exact Hs.
Qed.

Lemma no_match_is_nil {A : Type} (l : list A) : (forall x, ~ In x l) -> l = [].
Proof. destruct l as [|x l]; [reflexivity|]. intros H. destruct (H x). left. reflexivity. Qed.

Lemma strptime_HM_digits (s : string) :
  Py.forallb Py.is_digit s = true -> is_ValueError (strptime_HM s) = true.
Proof.
  intros Hs. unfold strptime_HM, Re.re_match.
  rewrite (no_match_is_nil (Re.seq _ re_H _ s)); [reflexivity|].
  intros [[h m] rest] (a & r & b & Ha & Hb & _)%in_re_seq.
  pose proof (re_H_rest_digits s a r Hs Ha) as Hr.
  apply in_re_seq in Hb as (c & r1 & b' & Hc & _ & _).
  apply in_class in Hc as (x & _ & -> & Hx). apply Ascii.eqb_eq in Hx as <-.
  apply digits_tail in Hr as [Hr _]. discriminate.
Qed.

Lemma in_iliteral (c : ascii) (l s a r : string) :
  In (a, r) (Re.iliteral (String c l) s) ->
  exists x s', s = String x s' /\ Py.to_lower x = Py.to_lower c.
Proof.
  cbn [Re.iliteral]. intros (a1 & r1 & a2 & H1 & _ & _)%in_re_seq.
  apply in_class in H1 as (x & _ & -> & Hx). apply Ascii.eqb_eq in Hx. eauto.
Qed.

Lemma digit_to_lower (x : ascii) : Py.is_digit x = true -> Py.to_lower x = x.
Proof.
  intros Hx. unfold Py.to_lower.
  assert (Hup : Py.is_upper x = false); [|rewrite Hup; reflexivity].
  unfold Py.is_digit, Py.is_upper in *. bool_lia.
Qed.

Lemma re_b_digits (s : string) :
  Py.forallb Py.is_digit s = true -> re_b s = [].
Proof.
  intros Hs. apply no_match_is_nil. intros [a r] (m & Hm & Hin)%in_alt.
  unfold re_b, a_month in Hm. cbn [List.map In] in Hm.
  repeat (destruct Hm as [<- | Hm];
          [apply in_iliteral in Hin as (x & s' & -> & Hx);
           apply digits_tail in Hs as [Hd _];
           rewrite (digit_to_lower _ Hd) in Hx; subst x;
           vm_compute in Hd; discriminate|]).
  destruct Hm.
Qed.

Lemma strptime_YbD_digits (s : string) :
  Py.forallb Py.is_digit s = true ->
  is_ValueError (strptime_YbD ("1996 " ++ s)) = true.
Proof.
  intros Hs. unfold strptime_YbD, Re.re_match.
  rewrite (no_match_is_nil (Re.seq _ re_Y _ _)); [reflexivity|].
  intros [[y [b d]] rest] (a & r & x & Ha & Hx & _)%in_re_seq.
  assert (Hr : r = String " " s).
  { unfold re_Y in Ha. apply in_re_seq in Ha as (a1 & r1 & a2 & H1 & H2 & _).
    apply in_two_classes in H1 as (c1 & c2 & E1).
    apply in_two_classes in H2 as (c3 & c4 & ->).
    injection E1 as _ _ _ _ <-. reflexivity. }
  subst r. apply in_re_seq in Hx as (sp & r2 & bd & Hsp & Hbd & _).
  assert (Hr2 : r2 = s).
  { apply in_plus in Hsp as (E & Hall & Hne).
    destruct sp as [|c1 [|c2 sp]]; [congruence | |].
    { change (String c1 EmptyString ++ r2) with (String c1 r2) in E.
      injection E as _ <-. reflexivity. }
    change (String c1 (String c2 sp) ++ r2) with (String c1 (String c2 (sp ++ r2))) in E.
    injection E as _ E. subst s. apply andb_prop in Hall as [_ Hall].
    apply andb_prop in Hall as [Hc2 _]. apply digits_tail in Hs as [Hd _].
    unfold Py.is_digit, Py.is_space in *. bool_lia. }
  subst r2. apply in_re_seq in Hbd as (b' & r3 & d' & Hb & _ & _).
  rewrite (re_b_digits s Hs) in Hb. destruct Hb.
Qed.

(** X7. A token of decimal digits whose value is a year from 1 to 9999 is
    a bare year: the normalizer answers the first of January of that year at
    midnight, whatever now is. *)
Theorem calculate_datetime_bare_year (now : datetime) (value : string) :
  Py.is_decimal value = true ->
  1 <= Py.digits_val 0 value <= 9999 ->
  _calculate_datetime now value
  = Ok (mk_datetime (Py.digits_val 0 value) 1 1 0 0 0 0).
Proof.
  intros Hdec Hrange.
  assert (Hs : Py.forallb Py.is_digit value = true)
    by (destruct value; [discriminate | exact Hdec]).
  unfold _calculate_datetime.
  assert (H1 : forall k : datetime -> outcome datetime,
             is_ValueError (bind (strptime_HM value) k) = true).
  { intros k. pose proof (strptime_HM_digits value Hs) as H.
    destruct (strptime_HM value) as [t|[]]; try discriminate. reflexivity. }
  assert (H2 : forall k : datetime -> outcome datetime,
             is_ValueError (bind (strptime_YbD ("1996 " ++ value)) k) = true).
  { intros k. pose proof (strptime_YbD_digits value Hs) as H.
    destruct (strptime_YbD ("1996 " ++ value)) as [t|[]]; try discriminate.
    reflexivity. }
  rewrite (except_ValueError_handles _ _ (H1 _)).
  rewrite (except_ValueError_handles _ _ (H2 _)).
  rewrite (int_decimal _ Hdec). cbn [bind].
  assert (Hnew : datetime_new (Py.digits_val 0 value) 1 1 0 0
                 = Ok (mk_datetime (Py.digits_val 0 value) 1 1 0 0 0 0)).
  { apply (datetime_new_valid (mk_datetime (Py.digits_val 0 value) 1 1 0 0 0 0) 0 0);
      [|lia|lia].
    repeat split; simpl; try lia; vm_compute; discriminate. }
  rewrite Hnew. reflexivity.
Qed.

Lemma calculate_datetime_bare_year_witness :
  _calculate_datetime (mk_datetime 2011 12 1 20 0 0 0) "2004"
  = Ok (mk_datetime (Py.digits_val 0 "2004") 1 1 0 0 0 0).
Proof.
  apply (calculate_datetime_bare_year (mk_datetime 2011 12 1 20 0 0 0) "2004");
    [reflexivity | vm_compute; intuition discriminate].
Defined.

(** X8. When the normalizer raises a [ValueError], the message is
    [Can not parse datetime:] with the token in brackets. *)
Theorem calculate_datetime_error_names_token (now : datetime) (value msg : string) :
  _calculate_datetime now value = Raise (ValueError msg) ->
  msg = "Can not parse datetime: [" ++ value ++ "]".
Proof.
  intros [[= ->] | H]%calculate_datetime_raises; [reflexivity|].
  destruct (H msg). reflexivity.
Qed.

Lemma calculate_datetime_error_names_token_witness :
  _calculate_datetime (mk_datetime 2011 12 1 20 0 0 0) "start"
  = Raise (ValueError "Can not parse datetime: [start]")
  /\ "Can not parse datetime: [start]" = "Can not parse datetime: [" ++ "start" ++ "]".
Proof.
  split; [vm_compute; reflexivity|].
  apply (calculate_datetime_error_names_token (mk_datetime 2011 12 1 20 0 0 0) "start").
  vm_compute. reflexivity.
Defined.

(** X9. The token [Feb29] in a year that is no leap year: the date of
    the reference leap year cannot be moved to now's year, and the normalizer
    raises the [ValueError] of an unparsable token. *)
Theorem calculate_datetime_feb29 (now : datetime) :
  valid_date now ->
  Calendar.is_leap (year now) = false ->
  _calculate_datetime now "Feb29"
  = Raise (ValueError "Can not parse datetime: [Feb29]").
Proof.
  intros (Hy & _) Hleap. unfold _calculate_datetime.
  change (strptime_HM "Feb29")
    with (@Raise datetime (strptime_error "Feb29" "%H:%M")).
  change (strptime_YbD ("1996 " ++ "Feb29"))
    with (Ok (mk_datetime 1996 2 29 0 0 0 0)).
  cbn [bind except_ValueError strptime_error month day].
  assert (Hnew : datetime_new (year now) 2 29 0 0
                 = Raise (ValueError "day is out of range for month")).
  { unfold datetime_new, fits_c_int, Calendar.days_in_month. cbn [List.forallb].
    rewrite Hleap.
    repeat match goal with
      | |- context [?a <=? year now] =>
          let E := fresh in
          assert (E : (a <=? year now) = true) by (apply Z.leb_le; lia);
          rewrite E; clear E
      | |- context [year now <=? ?b] =>
          let E := fresh in
          assert (E : (year now <=? b) = true) by (apply Z.leb_le; lia);
          rewrite E; clear E
      end.
    reflexivity. }
  rewrite Hnew. reflexivity.
Qed.

Lemma calculate_datetime_feb29_witness :
  _calculate_datetime (mk_datetime 2011 12 1 20 0 0 0) "Feb29"
  = Raise (ValueError "Can not parse datetime: [Feb29]").
Proof.
  apply (calculate_datetime_feb29 (mk_datetime 2011 12 1 20 0 0 0));
    [vm_compute; intuition discriminate | reflexivity].
Defined.

(** ** Keys of the records *)

Lemma keys_in_empty (keys : list string) : keys_in ∅ keys.
Proof. intros k H. rewrite lookup_empty in H. congruence. Qed.

Lemma keys_in_insert (d : dict) (keys : list string) (k : string) (v : pyval) :
  keys_in d keys -> In k keys -> keys_in (<[k := v]> d) keys.
Proof.
  intros Hd Hk k' H. destruct (decide (k = k')) as [<- | Hne]; [exact Hk|].
  rewrite lookup_insert_ne in H by exact Hne. apply Hd, H.
Qed.

Lemma keys_in_update (d s : dict) (kd ks : list string) :
  keys_in d kd -> keys_in s ks -> keys_in (update d s) (ks ++ kd)%list.
Proof.
  intros Hd Hs k H. unfold update in H. apply in_or_app.
  destruct (s !! k) eqn:Hsk; [left; apply Hs; congruence|].
  right. apply Hd. intros Hdk. apply H. apply lookup_union_None. auto.
Qed.

Lemma keys_in_summary_record (name protocol : string) (last_change : datetime)
    (state : option string) :
  keys_in (summary_record name protocol last_change state) summary_keys.
Proof.
  unfold summary_record, summary_keys.
  repeat (apply keys_in_insert; [|simpl; tauto]). apply keys_in_empty.
Qed.

Lemma parse_route_stats_keys (result_dict result' : dict) (key_name value : string)
    (keys : list string) :
  keys_in result_dict keys -> In key_name keys ->
  _parse_route_stats result_dict key_name value = Ok result' ->
  keys_in result' keys.
Proof.
  intros Hd Hk. unfold _parse_route_stats.
  destruct (String.eqb _ _); [intros [= <-]; exact Hd|].
  destruct (Py.int value); [|discriminate].
  intros [= <-]. apply keys_in_insert; assumption.
Qed.

Lemma counter_key_known (field outcome : string) :
  In field route_change_fields -> In outcome route_outcomes ->
  In (counter_key field outcome) detail_keys.
Proof.
  intros Hf Ho. unfold detail_keys. apply in_or_app. right.
  apply in_flat_map. exists field. split; [exact Hf|].
  apply in_map. exact Ho.
Qed.

Lemma in_list_In (x : string) (l : list string) : in_list x l = true -> In x l.
Proof.
  unfold in_list. intros (y & Hy & ->%String.eqb_eq)%existsb_exists. exact Hy.
Qed.

Lemma counter_key_lower (field outcome : string) :
  In (Py.lower field) route_change_fields ->
  counter_key field outcome = counter_key (Py.lower field) outcome.
Proof.
  intros H. unfold counter_key. f_equal. f_equal.
  unfold route_change_fields in H. simpl in H.
  repeat (destruct H as [<- | H]; [reflexivity|]). destruct H.
Qed.

Lemma parse_detail_line_keys (result result' : dict) (line : string) :
  keys_in result detail_keys ->
  parse_detail_line result line = Ok result' ->
  keys_in result' detail_keys.
Proof.
  intros Hd. unfold parse_detail_line.
  destruct (Py.split_once ":" (Py.strip line)) as [|field [|value [|? ?]]];
    try discriminate.
  set (v := Py.strip value).
  assert (H1 : forall r1,
             (if String.eqb (Py.lower field) "routes"
              then routes <- findall_0 routes_field_re v ;;
                   imported <- Py.int (fst routes) ;;
                   exported <- Py.int (snd routes) ;;
                   Ok (<["routes_exported" := VInt exported]>
                         (<["routes_imported" := VInt imported]> result))
              else Ok result) = Ok r1 -> keys_in r1 detail_keys).
  { intros r1. destruct (String.eqb _ _); [|intros [= <-]; exact Hd].
    destruct (findall_0 routes_field_re v) as [routes|]; [|discriminate].
    cbn [bind]. destruct (Py.int (fst routes)); [|discriminate].
    cbn [bind]. destruct (Py.int (snd routes)); [|discriminate].
    intros [= <-]. repeat apply keys_in_insert; try exact Hd; simpl; tauto. }
  destruct (if String.eqb (Py.lower field) "routes" then _ else _) as [r1|];
    [|discriminate].
  specialize (H1 r1 eq_refl). cbn [bind].
  assert (H2 : forall r2,
             (if in_list (Py.lower field) route_change_fields
              then match Py.split v with
                   | [received; rejected; filtered; ignored; accepted] =>
                       let key_name_base := Py.replace " " "_" (Py.lower field) in
                       result <- _parse_route_stats r1 (key_name_base ++ "_received") received ;;
                       result <- _parse_route_stats result (key_name_base ++ "_rejected") rejected ;;
                       result <- _parse_route_stats result (key_name_base ++ "_filtered") filtered ;;
                       result <- _parse_route_stats result (key_name_base ++ "_ignored") ignored ;;
                       _parse_route_stats result (key_name_base ++ "_accepted") accepted
                   | tokens => Raise (unpack_error 5 (length tokens))
                   end
              else Ok r1) = Ok r2 -> keys_in r2 detail_keys).
  { intros r2. destruct (in_list (Py.lower field) route_change_fields) eqn:Hf;
      [|intros [= <-]; exact H1].
    apply in_list_In in Hf.
    assert (Hkey : forall outcome, In outcome route_outcomes ->
                     In (Py.replace " " "_" (Py.lower field) ++ String "_" outcome)
                        detail_keys).
    { intros outcome Ho. change (In (counter_key field outcome) detail_keys).
      rewrite (counter_key_lower _ _ Hf). apply counter_key_known; assumption. }
    destruct (Py.split v) as [|t0 [|t1 [|t2 [|t3 [|t4 [|? ?]]]]]]; try discriminate.
    cbv zeta.
    destruct (_parse_route_stats r1 _ t0) as [a1|] eqn:E1; [|discriminate].
    apply parse_route_stats_keys with (keys := detail_keys) in E1;
      [|exact H1|apply (Hkey "received"); simpl; tauto].
    cbn [bind].
    destruct (_parse_route_stats a1 _ t1) as [a2|] eqn:E2; [|discriminate].
    apply parse_route_stats_keys with (keys := detail_keys) in E2;
      [|exact E1|apply (Hkey "rejected"); simpl; tauto].
    cbn [bind].
    destruct (_parse_route_stats a2 _ t2) as [a3|] eqn:E3; [|discriminate].
    apply parse_route_stats_keys with (keys := detail_keys) in E3;
      [|exact E2|apply (Hkey "filtered"); simpl; tauto].
    cbn [bind].
    destruct (_parse_route_stats a3 _ t3) as [a4|] eqn:E4; [|discriminate].
    apply parse_route_stats_keys with (keys := detail_keys) in E4;
      [|exact E3|apply (Hkey "ignored"); simpl; tauto].
    cbn [bind]. intros E5.
    apply parse_route_stats_keys with (keys := detail_keys) in E5;
      [exact E5|exact E4|apply (Hkey "accepted"); simpl; tauto]. }
  destruct (if in_list (Py.lower field) route_change_fields then _ else _) as [r2|];
    [|discriminate].
  specialize (H2 r2 eq_refl). cbn [bind]. intros [= <-].
  destruct (String.eqb _ _); [|exact H2].
  apply keys_in_insert; [exact H2 | simpl; tauto].
Qed.

Lemma parse_peer_detail_keys (raw : list string) (peer_detail : dict) :
  _parse_peer_detail raw = Ok peer_detail -> keys_in peer_detail detail_keys.
Proof.
  unfold _parse_peer_detail.
  assert (H : forall result, keys_in result detail_keys ->
                parse_detail_lines result raw = Ok peer_detail ->
                keys_in peer_detail detail_keys).
  { induction raw as [|line raw IH]; intros result Hr; simpl.
    - intros [= <-]. exact Hr.
    - destruct (parse_detail_line result line) as [r|] eqn:E; [|discriminate].
      cbn [bind]. apply IH. eapply parse_detail_line_keys; eassumption. }
  apply H, keys_in_empty.
Qed.

(** ** What holds of every peer of a response *)

(** A property of every record that is a summary merged with a detail holds
    of every peer the response parser returns. *)
Lemma parse_peer_lines_Forall (now : datetime) (Q : dict -> Prop) :
  (forall body summary raw peer_detail,
      _parse_peer_summary now body = Ok summary ->
      _parse_peer_detail raw = Ok peer_detail ->
      Q (update peer_detail summary)) ->
  forall (n : nat) (lines : list string) (peers : list dict)
         (peer_summary : option dict) (out : list dict),
    (length lines <= n)%nat ->
    Forall Q peers ->
    (forall s, peer_summary = Some s -> exists body, _parse_peer_summary now body = Ok s) ->
    parse_peer_lines now true lines peers peer_summary = Ok out ->
    Forall Q out.
Proof.
  intros HQ. induction n as [|n IH]; intros lines peers ps out Hlen Hpeers Hps.
  { destruct lines; [intros [= <-]; exact Hpeers | simpl in Hlen; lia]. }
  destruct lines as [|line it]; [intros [= <-]; exact Hpeers|].
  simpl in Hlen. assert (Hit : (length it <= n)%nat) by lia.
  rewrite parse_peer_lines_cons.
  destruct (_extract_field_number (Py.strip line)) as [[field_number body]|e];
    [|discriminate].
  destruct (in_ignored field_number); [apply IH; assumption|].
  assert (Hstep : forall s' b, summary_step now field_number body ps = Ok (s', b) ->
                    forall s, s' = Some s ->
                      exists body', _parse_peer_summary now body' = Ok s).
  { unfold summary_step. intros s' b. destruct (is_field field_number 1002).
    - destruct (_parse_peer_summary now body) as [summary|] eqn:Hs; [|discriminate].
      cbn [bind]. destruct (protocol_is_not_BGP summary).
      + intros [= <- <-] s [=].
      + intros [= <- <-] s [= <-]. eauto.
    - intros [= <- <-]. exact Hps. }
  destruct (summary_step now field_number body ps) as [[s' []]|e]; [| |discriminate].
  { apply IH; [assumption | assumption | exact (Hstep _ _ eq_refl)]. }
  cbn [negb]. destruct (is_field field_number 1006);
    [|apply IH; [assumption | assumption | exact (Hstep _ _ eq_refl)]].
  destruct s' as [summary|];
    [|apply IH; [assumption | assumption | exact (Hstep _ _ eq_refl)]].
  destruct (negb (dict_truthy summary));
    [apply IH; [assumption | assumption | exact (Hstep _ _ eq_refl)]|].
  unfold parse_detail_block.
  destruct (read_detail_block body [] it) as [[raw rest]|e] eqn:Hread; [|discriminate].
  destruct (_parse_peer_detail raw) as [peer_detail|e] eqn:Hdetail; [|discriminate].
  apply IH.
  - apply read_detail_block_length in Hread. lia.
  - apply Forall_app. split; [exact Hpeers|]. constructor; [|constructor].
    destruct (Hstep _ _ eq_refl summary eq_refl) as [body' Hb].
    eapply HQ; eassumption.
  - intros s [=].
Qed.

Lemma parse_peer_data_Forall (now : datetime) (Q : dict -> Prop) (data : string)
    (peers : list dict) :
  (forall body summary raw peer_detail,
      _parse_peer_summary now body = Ok summary ->
      _parse_peer_detail raw = Ok peer_detail ->
      Q (update peer_detail summary)) ->
  _parse_peer_data now data true = Ok peers -> Forall Q peers.
Proof.
  intros HQ H. unfold _parse_peer_data in H.
  eapply (parse_peer_lines_Forall now Q HQ _ _ [] None peers (le_n _));
    [constructor | intros s [=] | exact H].
Qed.

Lemma peer_keys_known_aux (now : datetime) (data : string) (peers : list dict)
    (peer : dict) (key : string) :
  _parse_peer_data now data true = Ok peers ->
  In peer peers ->
  peer !! key <> None ->
  In key (summary_keys ++ detail_keys)%list.
Proof.
  intros Hparse Hin Hkey.
  assert (H : Forall (fun p => keys_in p (summary_keys ++ detail_keys)%list) peers).
  { apply (parse_peer_data_Forall now _ data peers); [|exact Hparse].
    intros body summary raw peer_detail Hs Hd.
    apply parse_peer_summary_inv in Hs as (n & p & v & lc & _ & _ & _ & _ & ->).
    apply keys_in_update.
    - eapply parse_peer_detail_keys, Hd.
    - apply keys_in_summary_record. }
  rewrite Forall_forall in H. apply (H peer); [apply list_elem_of_In, Hin | exact Hkey].
Qed.

(** X10. Every key of every peer the response parser returns is one of
    the five keys of a summary, [routes_imported], [routes_exported],
    [router_id], or a counter key of a route-churn row and column. *)
Theorem peer_keys_known (now : datetime) (data : string) (peers : list dict)
    (peer : dict) (key : string) :
  _parse_peer_data now data true = Ok peers ->
  In peer peers ->
  peer !! key <> None ->
  In key (summary_keys ++ detail_keys)%list.
Proof. apply peer_keys_known_aux. Qed.

Lemma peer_keys_known_witness :
  _parse_peer_data Fixture.now Fixture.one_protocol true
  = Ok [update Fixture.ps1_detail Fixture.ps1_summary]
  /\ In "router_id" (summary_keys ++ detail_keys)%list.
Proof.
  split; [exact fixture_one_protocol|].
  apply (peer_keys_known Fixture.now Fixture.one_protocol
           [update Fixture.ps1_detail Fixture.ps1_summary]
           (update Fixture.ps1_detail Fixture.ps1_summary) "router_id").
  - exact fixture_one_protocol.
  - left. reflexivity.
  - vm_compute. discriminate.
Defined.

(** ** The discovery script *)

Lemma discover_loop_no_description (peers : list dict) (first : bool)
    (out : list string) :
  Forall (fun peer => peer !! "description" = None) peers ->
  discover_loop peers first out = mk_run out None.
Proof.
  induction 1 as [|peer peers Hpeer _ IH]; [reflexivity|].
  simpl. rewrite Hpeer. exact IH.
Qed.

Lemma description_unknown : ~ In "description" (summary_keys ++ detail_keys)%list.
Proof.
  intros H. vm_compute in H.
  repeat (destruct H as [H | H]; [discriminate|]). exact H.
Qed.

Lemma parse_peer_data_no_description (now : datetime) (data : string)
    (peers : list dict) :
  _parse_peer_data now data true = Ok peers ->
  Forall (fun peer => peer !! "description" = None) peers.
Proof.
  intros Hparse. apply Forall_forall. intros peer Hin%list_elem_of_In.
  destruct (peer !! "description") eqn:Hd; [|reflexivity].
  destruct description_unknown.
  apply (peer_keys_known_aux now data peers peer "description" Hparse Hin).
  congruence.
Qed.

(** X11. The discovery script lists no peer. The parser stores no
    [description], the key the script asks for, so whatever the daemon
    replies the script prints the document without entries, or prints nothing
    when the query raises. *)
Theorem discover_bgp_peers_lists_nothing (now : datetime)
    (_send_query : string -> outcome string) :
  discover_bgp_peers now _send_query
  = match get_peer_status now _send_query None with
    | Ok _ => mk_run (document_open ++ document_close)%list None
    | Raise e => mk_run [] (Some (FromQuery e))
    end.
Proof.
  unfold discover_bgp_peers, get_peer_status. cbn [name_given negb].
  destruct (_send_query "show protocols all") as [data|e]; [|reflexivity].
  cbn [bind].
  destruct (_parse_peer_data now data true) as [peers|e] eqn:Hparse; [|reflexivity].
  cbn [bind].
  rewrite (discover_loop_no_description peers true document_open
             (parse_peer_data_no_description now data peers Hparse)).
  reflexivity.
Qed.

(** ** The response parser without detail *)

Lemma parse_peer_lines_without_detail (now : datetime) (lines : list string) :
  forall (peers : list dict) (peer_summary : option dict) (out : list dict),
    parse_peer_lines now false lines peers peer_summary = Ok out -> out = peers.
Proof.
  induction lines as [|line it IH]; intros peers ps out; [intros [= <-]; reflexivity|].
  rewrite parse_peer_lines_cons.
  destruct (_extract_field_number (Py.strip line)) as [[field_number body]|e];
    [|discriminate].
  destruct (in_ignored field_number); [apply IH|].
  destruct (summary_step now field_number body ps) as [[s' []]|e];
    [apply IH | discriminate | discriminate].
Qed.

(** X12. Called for a reply without detail, the response parser returns
    no peer: when it returns, the list is empty. *)
Theorem parse_peer_data_without_detail (now : datetime) (data : string)
    (peers : list dict) :
  _parse_peer_data now data false = Ok peers -> peers = [].
Proof. apply parse_peer_lines_without_detail. Qed.

Lemma parse_peer_data_without_detail_witness :
  _parse_peer_data Fixture.now
    (Fixture.text (Fixture.banner ++ [pb_summary Fixture.device])%list) false
  = Ok []
  /\ ([] : list dict) = [].
Proof.
  split; [vm_compute; reflexivity|].
  apply (parse_peer_data_without_detail Fixture.now
           (Fixture.text (Fixture.banner ++ [pb_summary Fixture.device])%list) []).
  vm_compute. reflexivity.
Defined.

(** X13. In a reply without detail, a summary line of a BGP peer makes
    the response parser raise [AttributeError]. *)
Theorem summary_without_detail_raises (now : datetime) (data : string)
    (before after : list string) (line body : string) (summary : dict) :
  Py.splitlines data = (before ++ line :: after)%list ->
  Forall (fun l => in_ignored_line l = true) before ->
  _extract_field_number (Py.strip line) = Ok (Some 1002, body) ->
  _parse_peer_summary now body = Ok summary ->
  protocol_is_not_BGP summary = false ->
  _parse_peer_data now data false = Raise AttributeError.
Proof.
  intros Hlines Hbefore Hx Hs Hbgp. unfold _parse_peer_data. rewrite Hlines.
  clear Hlines. generalize (@nil dict) (@None dict).
  induction Hbefore as [|l before Hl _ IH]; intros peers ps.
  - cbn [app]. rewrite parse_peer_lines_cons, Hx.
    cbn [in_ignored ignored_field_numbers existsb Z.eqb Pos.eqb orb].
    unfold summary_step. cbn [is_field Z.eqb Pos.eqb]. rewrite Hs. cbn [bind].
    rewrite Hbgp. reflexivity.
  - rewrite <- app_comm_cons, parse_peer_lines_cons.
    unfold in_ignored_line in Hl.
    destruct (_extract_field_number (Py.strip l)) as [[fn b]|]; [|discriminate].
    rewrite Hl. apply IH.
Qed.

Lemma summary_without_detail_raises_witness :
  _parse_peer_data Fixture.now
    (Fixture.text (Fixture.banner ++ block_lines Fixture.ps1)%list) false
  = Raise AttributeError.
Proof.
  apply (summary_without_detail_raises Fixture.now _ Fixture.banner
           (tl (block_lines Fixture.ps1))
           "1002-PS1      BGP      T_PS1    start  Jun13       Passive"
           "PS1      BGP      T_PS1    start  Jun13       Passive"
           Fixture.ps1_summary).
  - vm_compute. reflexivity.
  - repeat constructor.
  - vm_compute. reflexivity.
  - apply (parse_peer_summary_record Fixture.now _ "PS1" "BGP" "Jun13");
      vm_compute; reflexivity.
  - vm_compute. reflexivity.
Defined.

(** ** Replies without peers *)

(** X14. A reply in which no line is a summary line, the empty reply
    among them, gives the empty list of peers: detail lines without a summary
    before them are passed over. *)
Theorem parse_peer_data_no_summary (now : datetime) (data : string) :
  Forall (fun l => skipped l = true) (Py.splitlines data) ->
  _parse_peer_data now data true = Ok [].
Proof.
  intros H. unfold _parse_peer_data.
  rewrite <- (app_nil_r (Py.splitlines data)). apply (skipped_run now _ [] [] H).
Qed.

Lemma parse_peer_data_no_summary_witness :
  _parse_peer_data Fixture.now
    (Fixture.text [ "0001 BIRD 1.3.0 ready."; "1006-  Preference:     240";
                    "  Input filter:   ACCEPT"; EmptyString; "0000 " ]) true
  = Ok [].
Proof.
  apply (parse_peer_data_no_summary Fixture.now). repeat constructor.
Defined.

(** ** What the query sends *)

(** X15. For a name, [get_peer_status] asks the transport one command,
    [show protocols all] with the sanitized name between double quotes; the
    name has only characters of [[A-Za-z0-9_]], and nothing else of what the
    transport does bears on the result. *)
Theorem get_peer_status_sends_clean_name (now : datetime) (peer_name : string) :
  peer_name <> EmptyString ->
  Py.forallb Py.is_word (_clean_input peer_name) = true
  /\ forall send send' : string -> outcome string,
      send (query_for_name (_clean_input peer_name))
      = send' (query_for_name (_clean_input peer_name)) ->
      get_peer_status now send (Some peer_name)
      = get_peer_status now send' (Some peer_name).
Proof.
  intros Hname. split.
  - rewrite clean_input_unfold. apply clean_input_re_sub_word.
  - intros send send' H. unfold get_peer_status.
    destruct peer_name as [|c name]; [congruence|].
    cbn [name_given default negb]. unfold id.
    change ("show protocols all " ++ dquote ++ _clean_input (String c name) ++ dquote)
      with (query_for_name (_clean_input (String c name))).
    rewrite H. reflexivity.
Qed.

Lemma get_peer_status_sends_clean_name_witness :
  Py.forallb Py.is_word (_clean_input "PS-1") = true
  /\ forall send send' : string -> outcome string,
      send (query_for_name (_clean_input "PS-1"))
      = send' (query_for_name (_clean_input "PS-1")) ->
      get_peer_status Fixture.now send (Some "PS-1")
      = get_peer_status Fixture.now send' (Some "PS-1").
Proof.
  apply (get_peer_status_sends_clean_name Fixture.now "PS-1"). discriminate.
Defined.

(** ** Summary lines the parser cannot take *)

(** X16. A summary line the summary parser raises on, of whatever
    protocol, ends the parse of the response with that exception, also after
    blocks that were parsed: no peer is returned. *)
Theorem summary_error_aborts (now : datetime) (data : string)
    (before between after : list string) (blocks : list protocol_block)
    (outs : list (option dict)) (line body : string) (e : exn) :
  Py.splitlines data
  = (before ++ flat_map block_lines blocks ++ between ++ line :: after)%list ->
  Forall (fun l => skipped l = true) before ->
  Forall2 (block_peer now) blocks outs ->
  Forall (fun l => skipped l = true) between ->
  _extract_field_number (Py.strip line) = Ok (Some 1002, body) ->
  _parse_peer_summary now body = Raise e ->
  _parse_peer_data now data true = Raise e.
Proof.
  intros Hlines Hbefore Hblocks Hbetween Hx Hs.
  unfold _parse_peer_data. rewrite Hlines.
  rewrite (skipped_run now before _ [] Hbefore).
  rewrite (blocks_run now blocks outs Hblocks _ []).
  rewrite (skipped_run now between _ _ Hbetween).
  rewrite parse_peer_lines_cons, Hx.
  cbn [in_ignored ignored_field_numbers existsb Z.eqb Pos.eqb orb].
  unfold summary_step. cbn [is_field Z.eqb Pos.eqb]. rewrite Hs. reflexivity.
Qed.

Lemma summary_error_aborts_witness :
  _parse_peer_data (mk_datetime 2011 5 1 12 0 0 0)
    (Fixture.text (Fixture.banner
                     ++ [ "1002-kernel1  Kernel   master   up     Jun13" ])%list) true
  = Raise TypeError.
Proof.
  apply (summary_error_aborts (mk_datetime 2011 5 1 12 0 0 0) _
           Fixture.banner [] [] [] []
           "1002-kernel1  Kernel   master   up     Jun13"
           "kernel1  Kernel   master   up     Jun13" TypeError).
  - vm_compute. reflexivity.
  - repeat constructor.
  - constructor.
  - constructor.
  - vm_compute. reflexivity.
  - vm_compute. reflexivity.
Defined.

(** ** A summary without its detail block *)

Lemma plain_step (now : datetime) (line : string) (it : list string)
    (peers : list dict) (peer_summary : option dict) :
  plain_line line = true ->
  parse_peer_lines now true (line :: it) peers peer_summary
  = parse_peer_lines now true it peers peer_summary.
Proof.
  unfold plain_line. intros H. rewrite parse_peer_lines_cons.
  destruct (_extract_field_number (Py.strip line)) as [[field_number body]|e];
    [|discriminate].
  apply andb_prop in H as [H2 H6]. apply negb_true_iff in H2, H6.
  destruct (in_ignored field_number); [reflexivity|].
  unfold summary_step. rewrite H2, H6. reflexivity.
Qed.

Lemma plain_run (now : datetime) (lines : list string) (peers : list dict)
    (peer_summary : option dict) :
  Forall (fun l => plain_line l = true) lines ->
  parse_peer_lines now true lines peers peer_summary = Ok peers.
Proof.
  induction 1 as [|line lines Hline _ IH]; [reflexivity|].
  rewrite plain_step by exact Hline. exact IH.
Qed.

(** X17. A summary line that no detail block follows leaves no peer: when
    the reply ends after it, or goes on with lines that carry neither the
    summary code nor the detail code, the parser returns the peers of the
    blocks before it. *)
Theorem summary_without_detail_dropped (now : datetime) (data : string)
    (before after : list string) (blocks : list protocol_block)
    (outs : list (option dict)) (line body : string) (summary : dict) :
  Py.splitlines data
  = (before ++ flat_map block_lines blocks ++ line :: after)%list ->
  Forall (fun l => skipped l = true) before ->
  Forall2 (block_peer now) blocks outs ->
  _extract_field_number (Py.strip line) = Ok (Some 1002, body) ->
  _parse_peer_summary now body = Ok summary ->
  Forall (fun l => plain_line l = true) after ->
  _parse_peer_data now data true = Ok (block_peers outs).
Proof.
  intros Hlines Hbefore Hblocks Hx Hs Hafter.
  unfold _parse_peer_data. rewrite Hlines.
  rewrite (skipped_run now before _ [] Hbefore).
  rewrite (blocks_run now blocks outs Hblocks _ []).
  rewrite parse_peer_lines_cons, Hx.
  cbn [in_ignored ignored_field_numbers existsb Z.eqb Pos.eqb orb].
  unfold summary_step. cbn [is_field Z.eqb Pos.eqb]. rewrite Hs. cbn [bind].
  destruct (protocol_is_not_BGP summary); cbn [negb app];
    apply (plain_run now after _ _ Hafter).
Qed.

Lemma summary_without_detail_dropped_witness :
  _parse_peer_data Fixture.now
    (Fixture.text (Fixture.banner ++ block_lines Fixture.ps1
                     ++ [ "1002-PS2      BGP      T_PS2    start  2004       Passive";
                          "0000 " ])%list) true
  = Ok [update Fixture.ps1_detail Fixture.ps1_summary].
Proof.
  apply (summary_without_detail_dropped Fixture.now _ Fixture.banner [ "0000 " ]
           [Fixture.ps1] [Some (update Fixture.ps1_detail Fixture.ps1_summary)]
           "1002-PS2      BGP      T_PS2    start  2004       Passive"
           "PS2      BGP      T_PS2    start  2004       Passive"
           (summary_record "PS2" "BGP" (mk_datetime 2004 1 1 0 0 0 0) (Some "Passive"))).
  - vm_compute. reflexivity.
  - repeat constructor.
  - constructor; [exact fixture_ps1 | constructor].
  - vm_compute. reflexivity.
  - apply (parse_peer_summary_record Fixture.now _ "PS2" "BGP" "2004");
      vm_compute; reflexivity.
  - repeat constructor.
Defined.

(** ** Years out of range *)

(** X18. A token of decimal digits whose value is 0, or above 9999 and
    within a C [int], is no year of [datetime]: the normalizer raises the
    [ValueError] of an unparsable token. *)
Theorem calculate_datetime_year_out_of_range (now : datetime) (value : string) :
  Py.is_decimal value = true ->
  Py.digits_val 0 value = 0 \/ 9999 < Py.digits_val 0 value <= 2147483647 ->
  _calculate_datetime now value
  = Raise (ValueError ("Can not parse datetime: [" ++ value ++ "]")).
Proof.
  intros Hdec Hrange.
  assert (Hs : Py.forallb Py.is_digit value = true)
    by (destruct value; [discriminate | exact Hdec]).
  unfold _calculate_datetime.
  assert (H1 : forall k : datetime -> outcome datetime,
             is_ValueError (bind (strptime_HM value) k) = true).
  { intros k. pose proof (strptime_HM_digits value Hs) as H.
    destruct (strptime_HM value) as [t|[]]; try discriminate. reflexivity. }
  assert (H2 : forall k : datetime -> outcome datetime,
             is_ValueError (bind (strptime_YbD ("1996 " ++ value)) k) = true).
  { intros k. pose proof (strptime_YbD_digits value Hs) as H.
    destruct (strptime_YbD ("1996 " ++ value)) as [t|[]]; try discriminate.
    reflexivity. }
  rewrite (except_ValueError_handles _ _ (H1 _)).
  rewrite (except_ValueError_handles _ _ (H2 _)).
  rewrite (int_decimal _ Hdec). cbn [bind].
  assert (Hnew : datetime_new (Py.digits_val 0 value) 1 1 0 0
                 = Raise (ValueError "year is out of range")).
  { unfold datetime_new, fits_c_int. cbn [List.forallb].
    set (y := Py.digits_val 0 value) in *.
    assert (E1 : (-2147483648 <=? y) = true) by (apply Z.leb_le; lia).
    assert (E2 : (y <=? 2147483647) = true) by (apply Z.leb_le; lia).
    rewrite E1, E2. cbn.
    destruct Hrange as [Hy | Hy].
    - assert (E3 : (1 <=? y) = false) by (apply Z.leb_gt; lia). rewrite E3. reflexivity.
    - assert (E3 : (y <=? 9999) = false) by (apply Z.leb_gt; lia).
      rewrite E3, andb_false_r. reflexivity. }
  rewrite Hnew. reflexivity.
Qed.

Lemma calculate_datetime_year_out_of_range_witness :
  _calculate_datetime Fixture.now "0000"
  = Raise (ValueError ("Can not parse datetime: [" ++ "0000" ++ "]")).
Proof.
  apply (calculate_datetime_year_out_of_range Fixture.now "0000");
    [reflexivity | left; reflexivity].
Defined.

(** ** Fields the detail parser does not know *)

Lemma other_field_line_step (result : dict) (line : string) :
  other_field_line line = true -> parse_detail_line result line = Ok result.
Proof.
  unfold other_field_line, parse_detail_line.
  destruct (Py.split_once ":" (Py.strip line)) as [|field [|value [|? ?]]];
    try discriminate.
  intros [[H1 H2]%andb_prop H3]%andb_prop.
  apply negb_true_iff in H1, H2, H3. rewrite H1, H2, H3. reflexivity.
Qed.

(** X19. Lines with a field the detail parser does not know add nothing
    and take nothing away: a detail block gives the same record, or raises
    the same exception, with these lines and without them. *)
Theorem detail_other_fields_ignored (raw : list string) :
  _parse_peer_detail raw
  = _parse_peer_detail (List.filter (fun l => negb (other_field_line l)) raw).
Proof.
  unfold _parse_peer_detail. generalize (∅ : dict).
  induction raw as [|line raw IH]; intros result; [reflexivity|].
  cbn [List.filter]. destruct (other_field_line line) eqn:Hline; cbn [negb].
  - cbn [parse_detail_lines]. rewrite (other_field_line_step _ _ Hline).
    cbn [bind]. apply IH.
  - cbn [parse_detail_lines]. destruct (parse_detail_line result line); [|reflexivity].
    cbn [bind]. apply IH.
Qed.

(** ** The columns the summary parser reads *)

(** X20. The summary parser reads columns 0, 1, 4 and 5 only: two lines
    that agree on these columns give the same record, or the same
    exception. *)
Theorem parse_peer_summary_reads_four_columns (now : datetime) (line line' : string) :
  Py.split line !! 0%nat = Py.split line' !! 0%nat ->
  Py.split line !! 1%nat = Py.split line' !! 1%nat ->
  Py.split line !! 4%nat = Py.split line' !! 4%nat ->
  Py.split line !! 5%nat = Py.split line' !! 5%nat ->
  _parse_peer_summary now line = _parse_peer_summary now line'.
Proof.
  intros H0 H1 H4 H5. unfold _parse_peer_summary, Py.index.
  rewrite H0, H1, H4, H5. reflexivity.
Qed.

Lemma parse_peer_summary_reads_four_columns_witness :
  _parse_peer_summary Fixture.now
    "PS1      BGP      T_PS1    start  Jun13       Active   Socket: Connection refused"
  = _parse_peer_summary Fixture.now
      "PS1      BGP      master   up     Jun13       Active".
Proof.
  apply (parse_peer_summary_reads_four_columns Fixture.now
           "PS1      BGP      T_PS1    start  Jun13       Active   Socket: Connection refused"
           "PS1      BGP      master   up     Jun13       Active");
    vm_compute; reflexivity.
Defined.
